(** * quick_profile_analysis.py: a shallow embedding and its properties

    The script decompresses a profile capture with a shell command, loads
    the resulting JSON document, prints per-thread statistics, a global
    summary and a fixed comparison block.  The embedding below follows the
    script statement by statement:

    - Python values keep their Python behaviour: integers are [Z], floats
      are IEEE-754 binary64 values ([spec_float] at precision 53), list
      subscripts accept negative indices and raise [IndexError] outside
      [-len, len), comparing [None] with an integer raises [TypeError];
    - JSON objects read with [dict.get(key, default)] are records whose
      fields are optional;
    - printing, spawning the subprocess and opening the file are recorded
      as events of a trace; exceptions and [sys.exit] end the run. *)

From Stdlib Require Import ZArith List String Ascii Bool Lia.
From Stdlib Require Import SpecFloat DecimalString.
From Stdlib Require Import Sorted Permutation.
Import ListNotations.

Local Open Scope string_scope.
Local Open Scope Z_scope.

(** ** Python primitives *)

Module Py.

(** Exceptions the script can raise. [LoadError] stands for whatever
    [open] or [json.load] raise on a missing or malformed file. *)
Inductive exn : Type :=
| IndexError
| KeyError
| TypeError
| OverflowError
| LoadError.

(** Pure computations that may raise. *)
Inductive Result (A : Type) : Type :=
| Ok (a : A)
| Err (e : exn).
Arguments Ok {A} a.
Arguments Err {A} e.

Definition rbind {A B} (r : Result A) (k : A -> Result B) : Result B :=
  match r with
  | Ok a => k a
  | Err e => Err e
  end.

Definition len {A} (l : list A) : Z := Z.of_nat (List.length l).

(** [l[i]]: a negative [i] counts from the end. *)
Definition subscript {A} (l : list A) (i : Z) : Result A :=
  let j := if i <? 0 then len l + i else i in
  if j <? 0 then Err IndexError
  else match nth_error l (Z.to_nat j) with
       | Some a => Ok a
       | None => Err IndexError
       end.

(** [l[x]] where [x] was read from JSON and may be [None] (null). *)
Definition subscript_at {A} (l : list A) (x : option Z) : Result A :=
  match x with
  | Some i => subscript l i
  | None => Err TypeError
  end.

(** [d[key]] on a dict whose entry for [key] may be missing. *)
Definition item {A} (entry : option A) : Result A :=
  match entry with
  | Some a => Ok a
  | None => Err KeyError
  end.

(** [d.get(key, default)]. *)
Definition get {A} (entry : option A) (default : A) : A :=
  match entry with
  | Some a => a
  | None => default
  end.

(** [x < n] where [x] was read from JSON and may be [None] (null). *)
Definition lt (x : option Z) (n : Z) : Result bool :=
  match x with
  | Some i => Ok (i <? n)
  | None => Err TypeError
  end.

(** [for x in l: s = body(s, x)], stopping at the first exception. *)
Fixpoint for_in {A S} (l : list A) (body : S -> A -> Result S) (s : S)
  : Result S :=
  match l with
  | [] => Ok s
  | x :: l' => rbind (body s x) (for_in l' body)
  end.

(** [str(n)] for an integer of at most 4300 decimal digits, the default
    limit above which CPython 3.11 and later raise ValueError. *)
Definition str (z : Z) : string := NilZero.string_of_int (Z.to_int z).

(** [str(b)] for a boolean, as an f-string renders it. *)
Definition str_bool (b : bool) : string := if b then "True" else "False".

(** *** Floats (binary64) *)

Definition prec : Z := 53.
Definition emax : Z := 1024.
Definition float : Type := spec_float.

Definition float_of_int (z : Z) : float := binary_normalize prec emax z 0 false.
Definition fadd : float -> float -> float := SFadd prec emax.
Definition fmul : float -> float -> float := SFmul prec emax.
Definition fdiv : float -> float -> float := SFdiv prec emax.

(** [a / b] on integers (true division), for operands below 2^53 in
    magnitude: they convert to floats exactly, so the float quotient is the
    correctly rounded quotient that CPython returns.  (For larger operands
    CPython still rounds the exact quotient once, and raises OverflowError
    when it is out of range.) *)
Definition truediv (a b : Z) : float := fdiv (float_of_int a) (float_of_int b).

(** [sum(l)] over floats: the start value is the integer 0 and the items
    are added from left to right.  (CPython 3.12 and later also carry a
    compensation term; it is zero whenever the partial sums are exact.) *)
Definition fsum (l : list float) : float :=
  fold_left fadd l (float_of_int 0).

(** [sum(l)] over integers. *)
Definition isum (l : list Z) : Z := fold_left Z.add l 0.

(** [int(x)]: truncation toward zero. *)
Definition int (x : float) : Result Z :=
  match x with
  | S754_zero _ => Ok 0
  | S754_finite s m e =>
      let a := match e with
               | Z0 => Zpos m
               | Zpos p => Zpos m * 2 ^ Zpos p
               | Zneg p => Zpos m / 2 ^ Zpos p
               end in
      Ok (if s then - a else a)
  | S754_infinity _ => Err OverflowError
  | S754_nan => Err TypeError
  end.

(** The integer nearest to [n / d], ties to even ([0 <= n], [0 < d]). *)
Definition round_half_even (n d : Z) : Z :=
  let q := n / d in
  let r := n mod d in
  match 2 * r ?= d with
  | Lt => q
  | Gt => q + 1
  | Eq => if Z.even q then q else q + 1
  end.

Definition two_digits (n : Z) : string :=
  if n <? 10 then "0" ++ str n else str n.

(** [f'{x:.2f}']: the exact value of [x] rounded to two decimals. *)
Definition format_2f (x : float) : string :=
  match x with
  | S754_zero s => (if s then "-" else "") ++ "0.00"
  | S754_infinity s => if s then "-inf" else "inf"
  | S754_nan => "nan"
  | S754_finite s m e =>
      let h := match e with
               | Z0 => Zpos m * 100
               | Zpos p => Zpos m * 2 ^ Zpos p * 100
               | Zneg p => round_half_even (Zpos m * 100) (2 ^ Zpos p)
               end in
      (if s then "-" else "") ++ str (h / 100) ++ "." ++ two_digits (h mod 100)
  end.

(** *** collections.Counter *)

(** [c[k] += 1], a new key going last (dicts keep insertion order). *)
Fixpoint counter_incr (k : string) (c : list (string * nat))
  : list (string * nat) :=
  match c with
  | [] => [(k, 1%nat)]
  | (k', n) :: c' =>
      if String.eqb k k' then (k', S n) :: c'
      else (k', n) :: counter_incr k c'
  end.

Definition Counter (l : list string) : list (string * nat) :=
  fold_left (fun c k => counter_incr k c) l [].

(** Stable insertion into a list sorted by decreasing count: the new
    item passes only items with a strictly larger count. *)
Fixpoint insert_desc (x : string * nat) (l : list (string * nat))
  : list (string * nat) :=
  match l with
  | [] => [x]
  | y :: l' =>
      if (snd x <? snd y)%nat then y :: insert_desc x l'
      else x :: l
  end.

(** [sorted(items, key=count, reverse=True)]; equal counts keep their
    first-seen order. *)
Definition sort_desc (l : list (string * nat)) : list (string * nat) :=
  fold_right insert_desc [] l.

(** [c.most_common(n)]. *)
Definition most_common (n : nat) (c : list (string * nat))
  : list (string * nat) :=
  firstn n (sort_desc c).

End Py.

Import Py.

Declare Scope result_scope.
Delimit Scope result_scope with result.
Notation "x <- r ;; k" := (rbind r (fun x => k))
  (at level 61, r at next level, right associativity) : result_scope.

(** ** The profile document *)

(** [samples]: a missing key is [None]; a thread without a [samples]
    object reads as the empty dict, that is, all four keys missing. *)
Record SampleBlock : Type := {
  s_length : option Z;
  timeDeltas : option (list float);
  threadCPUDelta : option (list Z);
  stack : option (list (option Z))
}.

(** [stackTable]: only the [frame] column is read, but the script also
    tests the dict for emptiness, so the presence of other keys counts. *)
Record StackTable : Type := {
  frame : option (list (option Z));
  st_other_keys : bool
}.

Record FrameTable : Type := {
  func : option (list (option Z))
}.

Record FuncTable : Type := {
  f_name : option (list string)
}.

Record Thread : Type := {
  t_name : option string;
  isMainThread : option bool;
  samples : SampleBlock;
  stackTable : StackTable;
  frameTable : FrameTable;
  funcTable : FuncTable
}.

Record Document : Type := {
  threads : option (list Thread)
}.

(** ** Effects *)

Inductive event : Type :=
| Stdout (text : string)
| Spawned (cmd : string)
| Opened (path : string).

Inductive outcome (A : Type) : Type :=
| Returned (a : A)
| Raised (e : exn)
| Exited (status : Z).
Arguments Returned {A} a.
Arguments Raised {A} e.
Arguments Exited {A} status.

(** A command yields the events it performed and how it ended. *)
Definition M (A : Type) : Type := (list event * outcome A)%type.

Definition ret {A} (a : A) : M A := ([], Returned a).

Definition bind {A B} (m : M A) (k : A -> M B) : M B :=
  match m with
  | (tr, Returned a) => let (tr', o) := k a in ((tr ++ tr')%list, o)
  | (tr, Raised e) => (tr, Raised e)
  | (tr, Exited c) => (tr, Exited c)
  end.

Declare Scope cmd_scope.
Delimit Scope cmd_scope with cmd.
Notation "x <- m ;; k" := (bind m (fun x => k))
  (at level 61, m at next level, right associativity) : cmd_scope.
Notation "m ;; k" := (bind m (fun _ => k))
  (at level 61, right associativity) : cmd_scope.

Definition print (text : string) : M unit := ([Stdout text], Returned tt).
Definition raise {A} (e : exn) : M A := ([], Raised e).
Definition sys_exit {A} (status : Z) : M A := ([], Exited status).

Definition lift {A} (r : Result A) : M A :=
  match r with
  | Ok a => ret a
  | Err e => raise e
  end.

(** What the script finds outside itself: the result of the
    decompression subprocess and the outcome of opening and parsing the
    intermediate file. *)
Record World : Type := {
  subprocess : string * string * Z;
  json_file : Result Document
}.

(** ** The script *)

(** [run_cmd(cmd)]: the triple (stdout, stderr, returncode). *)
Definition run_cmd (w : World) (cmd : string) : M (string * string * Z) :=
  ([Spawned cmd], Returned (subprocess w)).

(** [with open(path, ...) as f: data = json.load(f)]. *)
Definition load (w : World) (path : string) : M Document :=
  ([Opened path], match json_file w with
                | Ok d => Returned d
                | Err e => Raised e
                end).

(** The double-quote character of the shell command. *)
Definition dquote : string := String (ascii_of_nat 34) EmptyString.

Definition decompress_cmd : string :=
  "powershell -c " ++ dquote
  ++ "Add-Type -AssemblyName System.IO.Compression.FileSystem; [System.IO.Compression.GZipStream]::new([System.IO.File]::OpenRead('optimized-profile.json.gz'), [System.IO.Compression.CompressionMode]::Decompress) | Out-File -FilePath 'optimized-profile.json' -Encoding UTF8"
  ++ dquote.

(** One iteration of [for stack_idx in stacks] (lines 66-72): the three
    guarded look-ups, appending the resolved name to [func_calls]. *)
Definition resolve_sample (stack_table : StackTable) (frame_table : FrameTable)
    (func_names : list string) (func_calls : list string)
    (stack_idx : option Z) : Result (list string) :=
  match stack_idx with
  | None => Ok func_calls
  | Some s =>
      if s <? len (get (frame stack_table) []) then
        (frames <- item (frame stack_table) ;;
         frame_idx <- subscript frames s ;;
         in_frames <- lt frame_idx (len (get (func frame_table) [])) ;;
         if in_frames : bool then
           funcs <- item (func frame_table) ;;
           func_idx <- subscript_at funcs frame_idx ;;
           in_funcs <- lt func_idx (len func_names) ;;
           if in_funcs : bool then
             nm <- subscript_at func_names func_idx ;;
             Ok (func_calls ++ [nm])%list
           else Ok func_calls
         else Ok func_calls)%result
      else Ok func_calls
  end.

(** The whole loop, started with [func_calls = []]. *)
Definition resolve_calls (stack_table : StackTable) (frame_table : FrameTable)
    (func_names : list string) (stacks : list (option Z))
  : Result (list string) :=
  for_in stacks (resolve_sample stack_table frame_table func_names) [].

(** [if d:] on a dict. *)
Definition truthy_table (st : StackTable) : bool :=
  match frame st with
  | Some _ => true
  | None => st_other_keys st
  end.

(** [if l:] on a list. *)
Definition nonempty {A} (l : list A) : bool :=
  match l with
  | [] => false
  | _ :: _ => true
  end.

(** Lines 78-80: the heading and one line per entry. *)
Definition print_top (most_common : list (string * nat)) : M unit :=
  (print "  Топ-5 функций по семплам:" ;;
   fold_left (fun acc '(func_name, count) =>
                acc ;; print ("    " ++ func_name ++ ": " ++ str (Z.of_nat count)))
             most_common (ret tt))%cmd.

(** Lines 56-80: the function analysis of one thread. *)
Definition analyze_functions (thread : Thread) : M unit :=
  let smp := samples thread in
  let stack_table := stackTable thread in
  let frame_table := frameTable thread in
  match stack smp with
  | Some stacks =>
      if truthy_table stack_table then
        let func_names := get (f_name (funcTable thread)) [] in
        if nonempty stacks && nonempty func_names then
          (func_calls <- lift (resolve_calls stack_table frame_table func_names stacks) ;;
           if nonempty func_calls then
             print_top (most_common 5 (Counter func_calls))
           else ret tt)%cmd
        else ret tt
      else ret tt
  | None => ret tt
  end.

Definition display_name (i : nat) (thread : Thread) : string :=
  get (t_name thread) ("Thread " ++ str (Z.of_nat i)).

Definition sample_count (thread : Thread) : Z :=
  get (s_length (samples thread)) 0.

(** The body of [for i, thread in enumerate(threads)] (lines 33-82); the
    two running totals are threaded through. *)
Definition process_thread (i : nat) (thread : Thread) (totals : Z * Z)
  : M (Z * Z) :=
  let '(total_samples, total_cpu_time) := totals in
  let name := display_name i thread in
  let is_main := get (isMainThread thread) false in
  let smp := samples thread in
  let count := sample_count thread in
  (print ("Поток " ++ str (Z.of_nat i + 1) ++ ": " ++ name) ;;
   print ("  Основной поток: " ++ str_bool is_main) ;;
   print ("  Количество семплов: " ++ str count) ;;
   totals' <- (if count >? 0 then
                 let time_deltas := get (timeDeltas smp) [] in
                 let cpu_deltas := get (threadCPUDelta smp) [] in
                 let total_time := fsum time_deltas in
                 let total_cpu := isum cpu_deltas in
                 print ("  Общее время: " ++ format_2f total_time ++ " мс") ;;
                 print ("  CPU время: " ++ str total_cpu ++ " мкс") ;;
                 analyze_functions thread ;;
                 ret (total_samples + count, total_cpu_time + total_cpu)
               else ret totals) ;;
   print "" ;;
   ret totals')%cmd.

(** [enumerate(threads)] from position [i]. *)
Fixpoint thread_loop (i : nat) (ths : list Thread) (totals : Z * Z)
  : M (Z * Z) :=
  match ths with
  | [] => ret totals
  | thread :: rest =>
      (totals' <- process_thread i thread totals ;;
       thread_loop (S i) rest totals')%cmd
  end.

Definition baseline_cpu : Z := 9087.

(** [int((9087 - total_cpu_time) / 9087 * 100)] (line 97). *)
Definition improvement (total_cpu_time : Z) : Result Z :=
  int (fmul (truediv (baseline_cpu - total_cpu_time) baseline_cpu)
            (float_of_int 100)).

(** Lines 84-100. *)
Definition print_summary (totals : Z * Z) : M unit :=
  let '(total_samples, total_cpu_time) := totals in
  let cpu_line := str total_cpu_time ++ " мкс ("
                  ++ format_2f (truediv total_cpu_time 1000) ++ " мс)" in
  (print "=== СВОДКА ===" ;;
   print ("Общее количество семплов: " ++ str total_samples) ;;
   print ("Общее CPU время: " ++ cpu_line) ;;
   print "" ;;
   print "=== СРАВНЕНИЕ С ПРЕДЫДУЩИМ ПРОФИЛЕМ ===" ;;
   print "Предыдущий профиль (с 60-секундной задержкой):" ;;
   print "  CPU время: 9087 мкс (9.09 мс)" ;;
   print "  Основное узкое место: NtDelayExecution (ожидание)" ;;
   print "" ;;
   print "Оптимизированный профиль (без блокировки):" ;;
   print ("  CPU время: " ++ cpu_line) ;;
   pct <- lift (improvement total_cpu_time) ;;
   print ("  Улучшение: ~" ++ str pct ++ "% снижение CPU времени") ;;
   print "" ;;
   print "=== ОПТИМИЗАЦИЯ ЗАВЕРШЕНА ===")%cmd.

(** Lines 22-100: the report on a loaded document. *)
Definition report (data : Document) : M unit :=
  (print "=== АНАЛИЗ ОПТИМИЗИРОВАННОГО ПРОФИЛЯ ===" ;;
   print "" ;;
   ths <- lift (item (threads data)) ;;
   print ("Всего потоков: " ++ str (len ths)) ;;
   print "" ;;
   totals <- thread_loop 0 ths (0, 0) ;;
   print_summary totals)%cmd.

(** The whole script. *)
Definition main (w : World) : M unit :=
  (print "Распаковываем профиль..." ;;
   result <- run_cmd w decompress_cmd ;;
   let '(_, stderr, code) := result in
   if negb (code =? 0) then
     print ("Ошибка распаковки: " ++ stderr) ;;
     sys_exit 1
   else
     print "Анализируем профиль..." ;;
     data <- load w "optimized-profile.json" ;;
     report data)%cmd.

(** ** Notions used in the statements *)

(** The thread with its [samples.length] replaced. *)
Definition set_length (n : option Z) (thread : Thread) : Thread :=
  {| t_name := t_name thread;
     isMainThread := isMainThread thread;
     samples := {| s_length := n;
                   timeDeltas := timeDeltas (samples thread);
                   threadCPUDelta := threadCPUDelta (samples thread);
                   stack := stack (samples thread) |};
     stackTable := stackTable thread;
     frameTable := frameTable thread;
     funcTable := funcTable thread |}.

(** The three lines every thread block starts with. *)
Definition header_lines (i : nat) (thread : Thread) : list event :=
  [ Stdout ("Поток " ++ str (Z.of_nat i + 1) ++ ": " ++ display_name i thread);
    Stdout ("  Основной поток: " ++ str_bool (get (isMainThread thread) false));
    Stdout ("  Количество семплов: " ++ str (sample_count thread)) ].

Definition time_sum (thread : Thread) : float :=
  fsum (get (timeDeltas (samples thread)) []).

Definition cpu_sum (thread : Thread) : Z :=
  isum (get (threadCPUDelta (samples thread)) []).

(** The two lines derived from the delta sequences. *)
Definition derived_lines (thread : Thread) : list event :=
  [ Stdout ("  Общее время: " ++ format_2f (time_sum thread) ++ " мс");
    Stdout ("  CPU время: " ++ str (cpu_sum thread) ++ " мкс") ].

(** What a thread adds to [total_cpu_time]. *)
Definition cpu_share (thread : Thread) : Z :=
  if sample_count thread >? 0 then cpu_sum thread else 0.

Definition sum_over {A} (f : A -> Z) (l : list A) : Z :=
  fold_right (fun a acc => f a + acc) 0 l.

(** The lines of a top list. *)
Definition top_lines (top : list (string * nat)) : list event :=
  Stdout "  Топ-5 функций по семплам:"
  :: map (fun p => Stdout ("    " ++ fst p ++ ": " ++ str (Z.of_nat (snd p)))) top.

(** Index sequences as the data model describes them: 0-based, and null
    only in [samples.stack]. *)
Definition index_ok (nullable : bool) (x : option Z) : bool :=
  match x with
  | Some i => 0 <=? i
  | None => nullable
  end.

Definition well_indexed (thread : Thread) : bool :=
  forallb (index_ok true) (get (stack (samples thread)) [])
  && forallb (index_ok false) (get (frame (stackTable thread)) [])
  && forallb (index_ok false) (get (func (frameTable thread)) []).

(** The count a Counter holds for a key (0 when absent). *)
Fixpoint count_of (k : string) (c : list (string * nat)) : nat :=
  match c with
  | [] => 0
  | (k', n) :: c' => if String.eqb k k' then n else count_of k c'
  end.

(** Occurrences of a name in the resolved calls. *)
Definition occurrences (k : string) (l : list string) : nat :=
  count_occ string_dec l k.

Definition by_count_desc (x y : string * nat) : Prop := (snd y <= snd x)%nat.

(** The events of a run that are not followed by a normal return do not
    get the closing blank line of the thread block. *)
Definition closing {A} (o : outcome A) : list event :=
  match o with
  | Returned _ => [Stdout ""]
  | _ => []
  end.

Definition continue {A B} (o : outcome A) (b : B) : outcome B :=
  match o with
  | Returned _ => Returned b
  | Raised e => Raised e
  | Exited c => Exited c
  end.

(** What a thread adds to [total_samples]. *)
Definition sample_share (thread : Thread) : Z :=
  if sample_count thread >? 0 then sample_count thread else 0.

(** [total_cpu_time] as both summary blocks render it. *)
Definition cpu_text (total_cpu_time : Z) : string :=
  str total_cpu_time ++ " мкс (" ++ format_2f (truediv total_cpu_time 1000) ++ " мс)".

(** The summary and comparison lines up to the improvement line. *)
Definition summary_head (total_samples total_cpu_time : Z) : list event :=
  [ Stdout "=== СВОДКА ===";
    Stdout ("Общее количество семплов: " ++ str total_samples);
    Stdout ("Общее CPU время: " ++ cpu_text total_cpu_time);
    Stdout "";
    Stdout "=== СРАВНЕНИЕ С ПРЕДЫДУЩИМ ПРОФИЛЕМ ===";
    Stdout "Предыдущий профиль (с 60-секундной задержкой):";
    Stdout "  CPU время: 9087 мкс (9.09 мс)";
    Stdout "  Основное узкое место: NtDelayExecution (ожидание)";
    Stdout "";
    Stdout "Оптимизированный профиль (без блокировки):";
    Stdout ("  CPU время: " ++ cpu_text total_cpu_time) ].

Definition improvement_line (pct : Z) : event :=
  Stdout ("  Улучшение: ~" ++ str pct ++ "% снижение CPU времени").

(** What the script does before it reaches the threads of a document
    that decompressed and loaded. *)
Definition report_head (n_threads : Z) : list event :=
  [ Stdout "Распаковываем профиль...";
    Spawned decompress_cmd;
    Stdout "Анализируем профиль...";
    Opened "optimized-profile.json";
    Stdout "=== АНАЛИЗ ОПТИМИЗИРОВАННОГО ПРОФИЛЯ ===";
    Stdout "";
    Stdout ("Всего потоков: " ++ str n_threads);
    Stdout "" ].

(** A thread with the given tables and stack sequence and nothing else. *)
Definition table_thread (frames funcs : list (option Z)) (names : list string)
    (stacks : list (option Z)) : Thread :=
  {| t_name := None;
     isMainThread := None;
     samples := {| s_length := Some (len stacks);
                   timeDeltas := None;
                   threadCPUDelta := None;
                   stack := Some stacks |};
     stackTable := {| frame := Some frames; st_other_keys := false |};
     frameTable := {| func := Some funcs |};
     funcTable := {| f_name := Some names |} |}.

(** A thread without any field. *)
Definition bare_thread : Thread :=
  {| t_name := None;
     isMainThread := None;
     samples := {| s_length := None; timeDeltas := None;
                   threadCPUDelta := None; stack := None |};
     stackTable := {| frame := None; st_other_keys := false |};
     frameTable := {| func := None |};
     funcTable := {| f_name := None |} |}.

(** A thread that only has a sample block. *)
Definition sampled_thread (n : option Z) (deltas : option (list float))
    (cpu : option (list Z)) : Thread :=
  {| t_name := None;
     isMainThread := None;
     samples := {| s_length := n; timeDeltas := deltas;
                   threadCPUDelta := cpu; stack := None |};
     stackTable := {| frame := None; st_other_keys := false |};
     frameTable := {| func := None |};
     funcTable := {| f_name := None |} |}.

(** A run in which decompression succeeded and the file holds [ths]. *)
Definition loaded (ths : list Thread) : World :=
  {| subprocess := ("", "", 0);
     json_file := Ok {| threads := Some ths |} |}.

(** The input of the worked resolution example. *)
Definition example_thread : Thread :=
  table_thread [Some 0; Some 1] [Some 10; Some 11] ["foo"; "bar"]
               [Some 0; Some 0; Some 1].

(** The floats 1.5, 2.5 and 3.0. *)
Definition f1_5 : float := truediv 3 2.
Definition f2_5 : float := truediv 5 2.
Definition f3_0 : float := float_of_int 3.

(** ** Notions used to reason about rounding *)

(** The position of [N / D] between two integers, as the rounding of
    [SpecFloat] records it. *)
Definition loc_of (N D : Z) : location :=
  if N mod D =? 0 then loc_Exact else loc_Inexact (2 * (N mod D) ?= D).

(** A shift record that stands for the quotient [N / D]. *)
Definition represents (r : shr_record) (N D : Z) : Prop :=
  shr_m r = N / D /\ loc_of_shr_record r = loc_of N D.

(** The mantissas of the floats 9087.0 (exponent -39) and 100.0
    (exponent -46). *)
Definition m9087 : positive := 4995631080800256.
Definition m100 : positive := 7036874417766400.

(** ** Notions used in the further properties *)

(** [l[i]] restricted to 0-based indices: [None] outside [0, len). *)
Definition nth_opt {A} (l : list A) (i : Z) : option A :=
  if i <? 0 then None else nth_error l (Z.to_nat i).

(** The name a sample resolves to through the three tables, when its stack
    index and the indices it leads to are present and within bounds. *)
Definition lookup_name (st : StackTable) (ft : FrameTable) (names : list string)
    (x : option Z) : option string :=
  match x with
  | None => None
  | Some s =>
      match nth_opt (get (frame st) []) s with
      | Some (Some f) =>
          match nth_opt (get (func ft) []) f with
          | Some (Some g) => nth_opt names g
          | _ => None
          end
      | _ => None
      end
  end.

Definition lookup_names (st : StackTable) (ft : FrameTable) (names : list string)
    (stacks : list (option Z)) : list string :=
  flat_map (fun x => match lookup_name st ft names x with
                     | Some nm => [nm]
                     | None => []
                     end) stacks.

(** The sum of the counts of a Counter or of a top list. *)
Definition total_count (c : list (string * nat)) : nat :=
  fold_right (fun p acc => (snd p + acc)%nat) 0%nat c.

(** The distinct names of a list in the order of their first occurrence. *)
Definition first_seen (l : list string) : list string :=
  fold_left (fun acc k => if existsb (String.eqb k) acc then acc
                          else (acc ++ [k])%list) l [].

Definition has_count (c : nat) (p : string * nat) : bool := (snd p =? c)%nat.

(** The lines a thread block is made of: the heading, the indented
    lines and the blank line. *)
Definition block_line (e : event) : bool :=
  match e with
  | Stdout text =>
      String.eqb text "" || String.prefix "Поток " text || String.prefix "  " text
  | _ => false
  end.

Definition is_stdout (e : event) : bool :=
  match e with
  | Stdout _ => true
  | _ => false
  end.

(** The return code of the decompression subprocess. *)
Definition returncode (w : World) : Z := snd (subprocess w).

(** ** Notions used in the properties of the analysis and of the printed
    numbers *)

(** The function analysis as the documentation words it: performed when
    the thread has a non-empty [stackTable] and [samples] has a [stack]
    field; a sample whose index is null or out of bounds at any of the three
    stages is skipped ([lookup_names]); when resolved names exist, the
    heading and the five most frequent names are printed. *)
Definition analyze_functions_spec (thread : Thread) : M unit :=
  match stack (samples thread) with
  | Some stacks =>
      if truthy_table (stackTable thread) then
        let resolved := lookup_names (stackTable thread) (frameTable thread)
                                     (get (f_name (funcTable thread)) []) stacks in
        if nonempty resolved then print_top (most_common 5 (Counter resolved))
        else ret tt
      else ret tt
  | None => ret tt
  end.

(** A sample that the guards of the loop drop: it is null, or the index
    at one of the three stages is not below the length of the table it
    points into.  The frame and func indices are the ones the script's own
    subscripts return (a negative index counts from the end). *)
Definition null_or_too_large (st : StackTable) (ft : FrameTable)
    (names : list string) (x : option Z) : bool :=
  match x with
  | None => true
  | Some s =>
      if len (get (frame st) []) <=? s then true
      else match rbind (item (frame st)) (fun frames => subscript frames s) with
           | Ok (Some f) =>
               if len (get (func ft) []) <=? f then true
               else match rbind (item (func ft)) (fun funcs => subscript funcs f) with
                    | Ok (Some g) => len names <=? g
                    | _ => false
                    end
           | _ => false
           end
  end.

(** Integers that [str] and the f-strings convert: CPython 3.11 and later
    refuse, with ValueError, an integer of more than 4300 decimal digits. *)
Definition printable (z : Z) : bool := Z.abs z <? 10 ^ 4300.

(** The two integers a thread block prints. *)
Definition thread_printable (thread : Thread) : bool :=
  printable (sample_count thread) && printable (cpu_sum thread).

(** The mantissa of the float 1000.0 (exponent -43). *)
Definition m1000 : positive := 8796093022208000.



(** A thread with three time and CPU deltas and four stack entries. *)
Definition four_sample_thread : Thread :=
  {| t_name := None;
     isMainThread := None;
     samples := {| s_length := None;
                   timeDeltas := Some [f1_5; f2_5; f3_0];
                   threadCPUDelta := Some [100; 200; 300];
                   stack := Some [Some 0; Some 0; Some 1; Some 0] |};
     stackTable := {| frame := Some [Some 0; Some 1]; st_other_keys := false |};
     frameTable := {| func := Some [Some 0; Some 1] |};
     funcTable := {| f_name := Some ["foo"; "bar"] |} |}.

(** * Lemmas *)

(** ** Counting and ranking *)

Section Counter.

Lemma count_of_incr (k k' : string) (c : list (string * nat)) :
  count_of k' (counter_incr k c)
  = (count_of k' c + if String.eqb k' k then 1 else 0)%nat.
Proof.
  induction c as [|[k0 n] c IH]; simpl.
  - destruct (String.eqb k' k); reflexivity.
  - destruct (String.eqb_spec k k0) as [->|Hk]; simpl.
    + destruct (String.eqb_spec k' k0); lia.
    + destruct (String.eqb_spec k' k0) as [->|Hk'].
      * destruct (String.eqb_spec k0 k); [congruence | lia].
      * exact IH.
Qed.

Lemma keys_incr (k : string) (c : list (string * nat)) :
  forall k', In k' (map fst (counter_incr k c)) <-> k' = k \/ In k' (map fst c).
Proof.
  induction c as [|[k0 n] c IH]; simpl; intros k'.
  - intuition.
  - destruct (String.eqb_spec k k0) as [->|Hk]; simpl.
    + intuition.
    + rewrite IH. intuition.
Qed.

Lemma NoDup_keys_incr (k : string) (c : list (string * nat)) :
  NoDup (map fst c) -> NoDup (map fst (counter_incr k c)).
Proof.
  induction c as [|[k0 n] c IH]; simpl; intros Hc.
  - constructor; [intros [] | constructor].
  - inversion Hc as [|? ? Hk0 Hc']; subst.
    destruct (String.eqb_spec k k0) as [->|Hk]; simpl.
    + constructor; assumption.
    + constructor; [| auto].
      rewrite keys_incr. intros [E|E]; [congruence | contradiction].
Qed.

Lemma positive_incr (k : string) (c : list (string * nat)) :
  Forall (fun p => (0 < snd p)%nat) c ->
  Forall (fun p => (0 < snd p)%nat) (counter_incr k c).
Proof.
  induction c as [|[k0 n] c IH]; simpl; intros Hc.
  - repeat constructor.
  - inversion Hc; subst.
    destruct (String.eqb k k0); constructor; simpl in *; auto; lia.
Qed.

(** The invariant of the fold that builds a Counter. *)
Lemma Counter_fold (l : list string) :
  forall c,
    NoDup (map fst c) -> Forall (fun p => (0 < snd p)%nat) c ->
    let c' := fold_left (fun c k => counter_incr k c) l c in
    NoDup (map fst c')
    /\ Forall (fun p => (0 < snd p)%nat) c'
    /\ forall k, count_of k c' = (count_of k c + occurrences k l)%nat.
Proof.
  induction l as [|x l IH]; simpl; intros c Hnd Hpos.
  - repeat split; auto.
  - destruct (IH (counter_incr x c)) as (H1 & H2 & H3);
      auto using NoDup_keys_incr, positive_incr.
    repeat split; auto.
    intros k. rewrite H3, count_of_incr. unfold occurrences. simpl.
    destruct (string_dec x k) as [->|Hx].
    + rewrite String.eqb_refl. lia.
    + destruct (String.eqb_spec k x); [congruence | lia].
Qed.

Lemma count_of_In (c : list (string * nat)) :
  NoDup (map fst c) ->
  forall k n, In (k, n) c -> count_of k c = n.
Proof.
  induction c as [|[k0 n0] c IH]; simpl; intros Hnd k n Hin; [contradiction|].
  inversion Hnd as [|? ? Hk0 Hnd']; subst.
  destruct Hin as [E|Hin].
  - inversion E; subst. now rewrite String.eqb_refl.
  - destruct (String.eqb_spec k k0) as [->|Hk].
    + exfalso. apply Hk0. change k0 with (fst (k0, n)). now apply in_map.
    + eauto.
Qed.

Lemma count_of_absent (c : list (string * nat)) (k : string) :
  ~ In k (map fst c) -> count_of k c = 0%nat.
Proof.
  induction c as [|[k0 n0] c IH]; simpl; intros Hk; [reflexivity|].
  destruct (String.eqb_spec k k0) as [->|Hne]; [exfalso; auto | auto].
Qed.

Lemma Counter_NoDup (l : list string) : NoDup (map fst (Counter l)).
Proof. apply (Counter_fold l []); constructor. Qed.

Lemma Counter_count (l : list string) (k : string) (n : nat) :
  In (k, n) (Counter l) -> n = occurrences k l /\ (0 < n)%nat.
Proof.
  intros Hin.
  destruct (Counter_fold l [] (NoDup_nil _) (Forall_nil _)) as (Hnd & Hpos & Hcnt).
  split.
  - rewrite <- (count_of_In _ Hnd _ _ Hin). apply Hcnt.
  - rewrite Forall_forall in Hpos. apply (Hpos _ Hin).
Qed.

Lemma Counter_complete (l : list string) (k : string) :
  In k l -> In (k, occurrences k l) (Counter l).
Proof.
  intros Hin.
  destruct (Counter_fold l [] (NoDup_nil _) (Forall_nil _)) as (Hnd & Hpos & Hcnt).
  assert (Hocc : (0 < occurrences k l)%nat)
    by (apply (count_occ_In string_dec); exact Hin).
  destruct (in_dec string_dec k (map fst (Counter l))) as [Hk|Hk].
  - apply in_map_iff in Hk. destruct Hk as ([k' n] & E & Hk). simpl in E; subst k'.
    pose proof (count_of_In _ Hnd _ _ Hk) as E. fold (Counter l) in Hcnt.
    rewrite Hcnt in E. simpl in E. now subst n.
  - apply count_of_absent in Hk. fold (Counter l) in Hcnt.
    rewrite Hcnt in Hk. simpl in Hk. lia.
Qed.

End Counter.

Section Ranking.

Lemma insert_desc_perm (x : string * nat) (l : list (string * nat)) :
  Permutation (insert_desc x l) (x :: l).
Proof.
  induction l as [|y l IH]; simpl; [reflexivity|].
  destruct (snd x <? snd y)%nat; [| reflexivity].
  rewrite IH. apply perm_swap.
Qed.

Lemma sort_desc_perm (l : list (string * nat)) : Permutation (sort_desc l) l.
Proof.
  induction l as [|x l IH]; simpl; [reflexivity|].
  rewrite insert_desc_perm. now constructor.
Qed.

Lemma insert_desc_sorted (x : string * nat) (l : list (string * nat)) :
  StronglySorted by_count_desc l -> StronglySorted by_count_desc (insert_desc x l).
Proof.
  induction l as [|y l IH]; simpl; intros Hs.
  - repeat constructor.
  - inversion Hs as [|? ? Hs' Hy]; subst.
    destruct (Nat.ltb_spec (snd x) (snd y)) as [Hlt|Hge].
    + constructor; [auto|].
      rewrite Forall_forall in *. intros z Hz.
      apply (Permutation_in _ (insert_desc_perm x l)) in Hz.
      destruct Hz as [<-|Hz]; [unfold by_count_desc; lia | auto].
    + constructor; [assumption|].
      constructor; [exact Hge|].
      rewrite Forall_forall in *. intros z Hz.
      specialize (Hy z Hz). unfold by_count_desc in *. lia.
Qed.

Lemma sort_desc_sorted (l : list (string * nat)) :
  StronglySorted by_count_desc (sort_desc l).
Proof.
  induction l as [|x l IH]; simpl; [constructor | now apply insert_desc_sorted].
Qed.

Lemma sorted_firstn (n : nat) (l : list (string * nat)) :
  StronglySorted by_count_desc l ->
  StronglySorted by_count_desc (firstn n l)
  /\ forall x y, In x (firstn n l) -> In y (skipn n l) -> by_count_desc x y.
Proof.
  revert l. induction n as [|n IH]; intros l Hs; simpl.
  - split; [constructor | intros x y []].
  - destruct l as [|a l]; [split; [constructor | intros x y []]|].
    inversion Hs as [|? ? Hs' Ha]; subst.
    destruct (IH l Hs') as [IH1 IH2].
    rewrite Forall_forall in Ha.
    split.
    + constructor; [exact IH1|].
      rewrite Forall_forall. intros z Hz. apply Ha.
      rewrite <- (firstn_skipn n l). apply in_or_app. now left.
    + intros x y [<-|Hx] Hy.
      * apply Ha. rewrite <- (firstn_skipn n l). apply in_or_app. now right.
      * now apply IH2.
Qed.

Lemma In_firstn {A} (n : nat) (l : list A) (x : A) :
  In x (firstn n l) -> In x l.
Proof.
  intros Hx. rewrite <- (firstn_skipn n l). apply in_or_app. now left.
Qed.

Lemma NoDup_firstn {A} (n : nat) (l : list A) : NoDup l -> NoDup (firstn n l).
Proof.
  revert l. induction n as [|n IH]; intros [|a l] Hl; simpl; try constructor.
  - inversion Hl; subst. intros Hin. now apply In_firstn in Hin.
  - inversion Hl; subst. auto.
Qed.

(** What [most_common n] returns for the Counter of a list of names. *)
Lemma most_common_spec (n : nat) (calls : list string) :
  let top := most_common n (Counter calls) in
  List.length top = Nat.min n (List.length (Counter calls))
  /\ StronglySorted by_count_desc top
  /\ NoDup (map fst top)
  /\ (forall k c, In (k, c) top -> c = occurrences k calls /\ (0 < c)%nat)
  /\ (forall k, In k calls -> ~ In k (map fst top) ->
        List.length top = n
        /\ forall k' c', In (k', c') top -> (occurrences k calls <= c')%nat).
Proof.
  unfold most_common.
  pose proof (sort_desc_perm (Counter calls)) as Hperm.
  pose proof (sort_desc_sorted (Counter calls)) as Hsorted.
  destruct (sorted_firstn n _ Hsorted) as [Hs1 Hs2].
  assert (Hin : forall p, In p (firstn n (sort_desc (Counter calls))) ->
                          In p (Counter calls)).
  { intros p Hp. apply (Permutation_in _ Hperm). now apply In_firstn in Hp. }
  split; [| split; [| split; [| split]]].
  - rewrite length_firstn. now rewrite (Permutation_length Hperm).
  - exact Hs1.
  - rewrite <- firstn_map. apply NoDup_firstn.
    apply (Permutation_NoDup (Permutation_map fst (Permutation_sym Hperm))).
    apply Counter_NoDup.
  - intros k c Hk. apply Counter_count. now apply Hin.
  - intros k Hk Hout.
    pose proof (Counter_complete _ _ Hk) as Hc.
    apply (Permutation_in _ (Permutation_sym Hperm)) in Hc.
    rewrite <- (firstn_skipn n (sort_desc (Counter calls))) in Hc.
    apply in_app_or in Hc. destruct Hc as [Hc|Hc].
    { exfalso. apply Hout. change k with (fst (k, occurrences k calls)).
      now apply in_map. }
    split.
    + rewrite length_firstn. apply Nat.min_l.
      destruct (Nat.le_gt_cases n (List.length (sort_desc (Counter calls))));
        [assumption|].
      rewrite skipn_all2 in Hc by lia. contradiction.
    + intros k' c' Hk'. apply (Hs2 _ _ Hk' Hc).
Qed.

End Ranking.

(** ** The floats of the examples *)

Lemma example_floats :
  format_2f f1_5 = "1.50" /\ format_2f f2_5 = "2.50" /\ format_2f f3_0 = "3.00"
  /\ fsum [f1_5; f2_5; f3_0] = float_of_int 7.
Proof. repeat split; reflexivity. Qed.

(** ** Traces *)

Section Traces.

Lemma bind_print {B} (text : string) (k : unit -> M B) :
  bind (print text) k = (Stdout text :: fst (k tt), snd (k tt)).
Proof. unfold bind, print. destruct (k tt); reflexivity. Qed.

Lemma bind_ret {A B} (a : A) (k : A -> M B) : bind (ret a) k = k a.
Proof. unfold bind, ret. destruct (k a); reflexivity. Qed.

Lemma bind_returned {A B} (tr : list event) (a : A) (k : A -> M B) :
  bind (tr, Returned a) k = ((tr ++ fst (k a))%list, snd (k a)).
Proof. unfold bind. destruct (k a); reflexivity. Qed.

Lemma print_top_trace (top : list (string * nat)) :
  print_top top = (top_lines top, Returned tt).
Proof.
  unfold print_top, top_lines. rewrite bind_print.
  assert (H : forall l tr,
             fold_left (fun acc '(func_name, count) =>
                          bind acc (fun _ => print ("    " ++ func_name ++ ": "
                                                    ++ str (Z.of_nat count))))
                       l (tr, Returned tt)
             = ((tr ++ map (fun p => Stdout ("    " ++ fst p ++ ": "
                                            ++ str (Z.of_nat (snd p)))) l)%list,
                Returned tt)).
  { induction l as [|[k n] l IH]; intros tr; simpl.
    - now rewrite app_nil_r.
    - rewrite IH, <- app_assoc. reflexivity. }
  unfold ret. rewrite H. reflexivity.
Qed.

End Traces.

(** ** The per-sample look-ups *)

Section Resolution.

Variables (st : StackTable) (ft : FrameTable) (names : list string).

Lemma resolve_sample_null (calls : list string) :
  resolve_sample st ft names calls None = Ok calls.
Proof. reflexivity. Qed.

Lemma resolve_sample_stack_high (calls : list string) (s : Z) :
  len (get (frame st) []) <= s ->
  resolve_sample st ft names calls (Some s) = Ok calls.
Proof.
  intros H. unfold resolve_sample.
  destruct (Z.ltb_spec s (len (get (frame st) []))); [lia | reflexivity].
Qed.

Lemma subscript_in_range {A} (l : list A) (i : Z) :
  0 <= i < len l -> exists a, subscript l i = Ok a /\ In a l.
Proof.
  intros [H0 H1]. unfold subscript.
  destruct (Z.ltb_spec i 0); [lia|].
  destruct (Z.ltb_spec i 0); [lia|].
  destruct (nth_error l (Z.to_nat i)) eqn:E.
  - exists a. split; [reflexivity | eapply nth_error_In; eauto].
  - apply nth_error_None in E. unfold len in H1. lia.
Qed.

Lemma resolve_sample_frame_high (calls : list string) (s f : Z) (frames : list (option Z)) :
  frame st = Some frames ->
  subscript frames s = Ok (Some f) ->
  len (get (func ft) []) <= f ->
  resolve_sample st ft names calls (Some s) = Ok calls.
Proof.
  intros Hf Hs Hhigh. unfold resolve_sample. rewrite Hf. simpl.
  destruct (s <? len frames); [| reflexivity].
  rewrite Hs. simpl.
  destruct (Z.ltb_spec f (len (get (func ft) []))); [lia | reflexivity].
Qed.

Lemma resolve_sample_func_high (calls : list string) (s f g : Z)
      (frames funcs : list (option Z)) :
  frame st = Some frames ->
  subscript frames s = Ok (Some f) ->
  func ft = Some funcs ->
  subscript funcs f = Ok (Some g) ->
  len names <= g ->
  resolve_sample st ft names calls (Some s) = Ok calls.
Proof.
  intros Hf Hs Hg Hsf Hhigh. unfold resolve_sample. rewrite Hf, Hg. simpl.
  destruct (s <? len frames); [| reflexivity].
  rewrite Hs. simpl.
  destruct (f <? len funcs); [| reflexivity].
  rewrite Hsf. simpl.
  destruct (Z.ltb_spec g (len names)); [lia | reflexivity].
Qed.

(** With 0-based indices and no null inside the tables no look-up raises. *)
Lemma resolve_sample_total (calls : list string) (x : option Z) :
  index_ok true x = true ->
  forallb (index_ok false) (get (frame st) []) = true ->
  forallb (index_ok false) (get (func ft) []) = true ->
  exists calls', resolve_sample st ft names calls x = Ok calls'.
Proof.
  intros Hx Hframes Hfuncs. destruct x as [s|]; [| eexists; reflexivity].
  simpl in Hx. apply Z.leb_le in Hx. unfold resolve_sample.
  destruct (Z.ltb_spec s (len (get (frame st) []))) as [Hs|]; [| eexists; reflexivity].
  destruct (frame st) as [frames|]; simpl in *; [| unfold len in Hs; simpl in Hs; lia].
  destruct (subscript_in_range frames s) as (fi & -> & Hfi); [lia|]. simpl.
  rewrite forallb_forall in Hframes. specialize (Hframes _ Hfi).
  destruct fi as [f|]; [| discriminate]. simpl in *. apply Z.leb_le in Hframes.
  destruct (Z.ltb_spec f (len (get (func ft) []))) as [Hf|]; [| eexists; reflexivity].
  destruct (func ft) as [funcs|]; simpl in *; [| unfold len in Hf; simpl in Hf; lia].
  destruct (subscript_in_range funcs f) as (gi & -> & Hgi); [lia|]. simpl.
  rewrite forallb_forall in Hfuncs. specialize (Hfuncs _ Hgi).
  destruct gi as [g|]; [| discriminate]. simpl in *. apply Z.leb_le in Hfuncs.
  destruct (Z.ltb_spec g (len names)) as [Hg|]; [| eexists; reflexivity].
  destruct (subscript_in_range names g) as (nm & -> & _); [lia|]. simpl.
  eexists; reflexivity.
Qed.

Lemma for_in_total (stacks : list (option Z)) :
  forallb (index_ok true) stacks = true ->
  forallb (index_ok false) (get (frame st) []) = true ->
  forallb (index_ok false) (get (func ft) []) = true ->
  forall calls, exists calls',
      for_in stacks (resolve_sample st ft names) calls = Ok calls'.
Proof.
  intros Hs Hframes Hfuncs.
  induction stacks as [|x stacks IH]; intros calls; simpl.
  - eexists; reflexivity.
  - simpl in Hs. apply andb_prop in Hs. destruct Hs as [Hx Hs].
    destruct (resolve_sample_total calls x Hx Hframes Hfuncs) as (c1 & ->).
    simpl. apply IH, Hs.
Qed.

End Resolution.

(** With an empty name table a sample can only be skipped or raise. *)
Lemma resolve_sample_no_names (st : StackTable) (ft : FrameTable)
      (calls calls' : list string) (x : option Z) :
  resolve_sample st ft [] calls x = Ok calls' -> calls' = calls.
Proof.
  unfold resolve_sample. destruct x as [s|]; [| congruence].
  destruct (s <? _); [| congruence].
  destruct (item (frame st)) as [frames|]; simpl; [| discriminate].
  destruct (subscript frames s) as [fi|]; simpl; [| discriminate].
  destruct (lt fi _) as [[|]|]; simpl; try congruence.
  destruct (item (func ft)) as [funcs|]; simpl; [| discriminate].
  destruct (subscript_at funcs fi) as [gi|]; simpl; [| discriminate].
  destruct (lt gi _) as [[|]|]; simpl; try congruence.
  destruct gi as [g|]; simpl; [| discriminate].
  unfold subscript.
  repeat match goal with
         | |- context [if ?b then _ else _] => destruct b
         end; try discriminate; rewrite nth_error_nil; discriminate.
Qed.

Lemma for_in_no_names (st : StackTable) (ft : FrameTable)
      (stacks : list (option Z)) :
  forall acc calls,
    for_in stacks (resolve_sample st ft []) acc = Ok calls -> calls = acc.
Proof.
  induction stacks as [|x stacks IH]; intros acc calls; simpl.
  - congruence.
  - destruct (resolve_sample st ft [] acc x) as [acc'|] eqn:E; simpl; [| discriminate].
    apply resolve_sample_no_names in E. subst acc'. apply IH.
Qed.

Lemma resolve_calls_no_names (st : StackTable) (ft : FrameTable)
      (stacks : list (option Z)) (calls : list string) :
  resolve_calls st ft [] stacks = Ok calls -> calls = [].
Proof. apply for_in_no_names. Qed.

(** ** The function analysis *)

Section Analysis.

Variable th : Thread.

(** Whatever the analysis prints is a top list of the resolved calls. *)
Lemma analyze_functions_trace (tr : list event) (o : outcome unit) :
  analyze_functions th = (tr, o) ->
  tr = []
  \/ exists stacks calls,
      stack (samples th) = Some stacks
      /\ resolve_calls (stackTable th) (frameTable th)
                       (get (f_name (funcTable th)) []) stacks = Ok calls
      /\ calls <> []
      /\ tr = top_lines (most_common 5 (Counter calls))
      /\ o = Returned tt.
Proof.
  unfold analyze_functions.
  destruct (stack (samples th)) as [stacks|]; [| intros [= <- <-]; now left].
  destruct (truthy_table (stackTable th)); [| intros [= <- <-]; now left].
  destruct (nonempty stacks && _); [| intros [= <- <-]; now left].
  destruct (resolve_calls _ _ _ stacks) as [calls|e] eqn:E; simpl.
  - destruct calls as [|c calls]; simpl.
    + intros [= <- <-]; now left.
    + rewrite print_top_trace. simpl. intros [= <- <-]. right.
      exists stacks, (c :: calls). repeat split; congruence.
  - intros [= <- <-]; now left.
Qed.

Lemma analyze_functions_returns :
  well_indexed th = true -> snd (analyze_functions th) = Returned tt.
Proof.
  unfold well_indexed, analyze_functions. intros H.
  apply andb_prop in H. destruct H as [H Hfuncs].
  apply andb_prop in H. destruct H as [Hstacks Hframes].
  destruct (stack (samples th)) as [stacks|]; [| reflexivity].
  destruct (truthy_table (stackTable th)); [| reflexivity].
  destruct (nonempty stacks && _); [| reflexivity].
  simpl in Hstacks. unfold resolve_calls.
  destruct (for_in_total (stackTable th) (frameTable th)
              (get (f_name (funcTable th)) []) stacks Hstacks Hframes Hfuncs [])
    as (calls & ->).
  simpl. destruct calls; simpl; [reflexivity|].
  rewrite print_top_trace. reflexivity.
Qed.

End Analysis.

Lemma analyze_functions_set_length (n : option Z) (th : Thread) :
  analyze_functions (set_length n th) = analyze_functions th.
Proof. reflexivity. Qed.

(** ** One thread block *)

Section ThreadBlock.

Variables (i : nat) (th : Thread).

Lemma process_thread_skip (totals : Z * Z) :
  sample_count th <= 0 ->
  process_thread i th totals = ((header_lines i th ++ [Stdout ""])%list, Returned totals).
Proof.
  intros H. unfold process_thread. destruct totals as [ts tc].
  cbv beta iota zeta. rewrite !bind_print.
  destruct (Z.gtb_spec (sample_count th) 0) as [|_]; [lia|].
  rewrite bind_ret, bind_print. reflexivity.
Qed.

Lemma process_thread_derive (ts tc : Z) :
  0 < sample_count th ->
  process_thread i th (ts, tc)
  = ((header_lines i th ++ derived_lines th
      ++ fst (analyze_functions th) ++ closing (snd (analyze_functions th)))%list,
     continue (snd (analyze_functions th))
              (ts + sample_count th, tc + cpu_sum th)).
Proof.
  intros H. unfold process_thread.
  cbv beta iota zeta. rewrite !bind_print.
  destruct (Z.gtb_spec (sample_count th) 0) as [_|]; [|lia].
  rewrite ?bind_print.
  destruct (analyze_functions th) as [tr [[]|e|c]]; simpl;
    rewrite ?app_nil_r; reflexivity.
Qed.

End ThreadBlock.

(** ** The loop over the threads *)

Section Loop.

Lemma thread_loop_totals (ths : list Thread) :
  forall i ts tc tr ts' tc',
    thread_loop i ths (ts, tc) = (tr, Returned (ts', tc')) ->
    ts' = ts + sum_over sample_share ths /\ tc' = tc + sum_over cpu_share ths.
Proof.
  induction ths as [|th ths IH]; intros i ts tc tr ts' tc'.
  - simpl. intros [= <- <- <-]. lia.
  - unfold sum_over; cbn [thread_loop fold_right];
      fold (sum_over sample_share ths); fold (sum_over cpu_share ths).
    unfold sample_share at 1, cpu_share at 1.
    destruct (Z.gtb_spec (sample_count th) 0) as [Hpos|Hz].
    + rewrite process_thread_derive by lia.
      destruct (snd (analyze_functions th)) as [[]|e|c]; simpl; try discriminate.
      destruct (thread_loop (S i) ths _) as [tr2 o2] eqn:E. intros [= <- ->].
      apply IH in E. lia.
    + rewrite process_thread_skip by lia. simpl.
      destruct (thread_loop (S i) ths _) as [tr2 o2] eqn:E. intros [= <- ->].
      apply IH in E. lia.
Qed.


Lemma sample_share_count (ths : list Thread) :
  Forall (fun th => 0 <= sample_count th) ths ->
  sum_over sample_share ths = sum_over sample_count ths.
Proof.
  induction 1 as [|th ths Hth _ IH]; simpl; [reflexivity|].
  rewrite IH. unfold sample_share.
  destruct (Z.gtb_spec (sample_count th) 0); lia.
Qed.

End Loop.

(** ** The summary and the whole script *)

Section Summary.

Lemma print_summary_trace (ts tc : Z) :
  print_summary (ts, tc)
  = ((summary_head ts tc
      ++ match improvement tc with
         | Ok pct => [improvement_line pct; Stdout "";
                      Stdout "=== ОПТИМИЗАЦИЯ ЗАВЕРШЕНА ==="]
         | Err _ => []
         end)%list,
     match improvement tc with
     | Ok _ => Returned tt
     | Err e => Raised e
     end).
Proof.
  unfold print_summary, summary_head, cpu_text, improvement_line.
  cbv beta iota zeta.
  generalize (improvement tc), (format_2f (truediv tc 1000)), (str ts), (str tc).
  intros r ms samples_text cpu_us. destruct r as [pct|e]; reflexivity.
Qed.

Lemma report_trace (ths : list Thread) :
  report {| threads := Some ths |}
  = (([ Stdout "=== АНАЛИЗ ОПТИМИЗИРОВАННОГО ПРОФИЛЯ ==="; Stdout "";
        Stdout ("Всего потоков: " ++ str (len ths)); Stdout "" ]
      ++ fst (thread_loop 0 ths (0, 0))
      ++ match snd (thread_loop 0 ths (0, 0)) with
         | Returned totals => fst (print_summary totals)
         | _ => []
         end)%list,
     match snd (thread_loop 0 ths (0, 0)) with
     | Returned totals => snd (print_summary totals)
     | Raised e => Raised e
     | Exited c => Exited c
     end).
Proof.
  unfold report. rewrite !bind_print. simpl lift. rewrite bind_ret, !bind_print.
  destruct (thread_loop 0 ths (0, 0)) as [tr [totals|e|c]]; simpl;
    rewrite ?app_nil_r; try reflexivity.
  destruct (print_summary totals); reflexivity.
Qed.


End Summary.

Lemma process_thread_header (i : nat) (th : Thread) (totals : Z * Z) :
  exists rest, fst (process_thread i th totals) = (header_lines i th ++ rest)%list.
Proof.
  destruct totals as [ts tc].
  destruct (Z.lt_ge_cases 0 (sample_count th)).
  - rewrite process_thread_derive by assumption. eexists; reflexivity.
  - rewrite process_thread_skip by lia. eexists; reflexivity.
Qed.

(** The loop reaches the thread at list position [k] with [i = k], unless an
    earlier thread raised. *)
Lemma thread_loop_reaches (ths : list Thread) :
  forall k th i totals,
    nth_error ths k = Some th ->
    forallb well_indexed (firstn k ths) = true ->
    exists before totals_k after,
      fst (thread_loop i ths totals)
      = (before ++ fst (process_thread (i + k) th totals_k) ++ after)%list.
Proof.
  induction ths as [|t0 ths IH]; intros k th i totals Hk Hwi.
  - destruct k; discriminate.
  - destruct k as [|k]; cbn [thread_loop].
    + simpl in Hk. injection Hk as ->. rewrite Nat.add_0_r.
      exists [], totals.
      destruct (process_thread i th totals) as [tr [t'|e|c]]; simpl.
      * destruct (thread_loop (S i) ths t'). eexists; reflexivity.
      * exists []. now rewrite app_nil_r.
      * exists []. now rewrite app_nil_r.
    + simpl in Hk, Hwi. apply andb_prop in Hwi. destruct Hwi as [Ht0 Hwi].
      destruct totals as [ts tc].
      assert (Hret : exists t', snd (process_thread i t0 (ts, tc)) = Returned t').
      { destruct (Z.lt_ge_cases 0 (sample_count t0)).
        - rewrite process_thread_derive by assumption.
          rewrite (analyze_functions_returns t0 Ht0). eexists; reflexivity.
        - rewrite process_thread_skip by lia. eexists; reflexivity. }
      destruct Hret as (t' & Hret).
      destruct (process_thread i t0 (ts, tc)) as [tr0 o0]. simpl in Hret. subst o0.
      destruct (IH k th (S i) t' Hk Hwi) as (before & totals_k & after & E).
      simpl. destruct (thread_loop (S i) ths t') as [tr1 o1]. simpl in *.
      exists (tr0 ++ before)%list, totals_k, after.
      rewrite E, <- app_assoc. repeat f_equal. lia.
Qed.

(** ** Binary64 rounding *)

Section Shifting.

Lemma round_nearest_even_loc_of (N D : Z) :
  0 < D -> round_nearest_even (N / D) (loc_of N D) = round_half_even N D.
Proof.
  intros HD. unfold loc_of, round_half_even, round_nearest_even.
  destruct (Z.eqb_spec (N mod D) 0) as [E|E].
  - rewrite E. change (2 * 0) with 0. destruct D; [lia | reflexivity | lia].
  - destruct (2 * (N mod D) ?= D); reflexivity.
Qed.

Lemma round_half_even_near (N D : Z) :
  0 < D -> 2 * Z.abs (round_half_even N D * D - N) <= D.
Proof.
  intros HD. unfold round_half_even.
  pose proof (Z.div_mod N D ltac:(lia)) as E.
  pose proof (Z.mod_pos_bound N D HD) as B.
  destruct (Z.compare_spec (2 * (N mod D)) D); [| lia | lia].
  destruct (Z.even (N / D)); lia.
Qed.

Lemma represents_of_loc (N D : Z) :
  represents (shr_record_of_loc (N / D) (loc_of N D)) N D.
Proof.
  unfold represents, loc_of.
  destruct (N mod D =? 0); [split; reflexivity|].
  destruct (2 * (N mod D) ?= D); split; reflexivity.
Qed.

Lemma mod_double (N D : Z) :
  0 < D -> 0 <= N ->
  N / (2 * D) = N / D / 2
  /\ N mod (2 * D) = (N / D) mod 2 * D + N mod D.
Proof.
  intros HD HN.
  pose proof (Z.div_mod N D ltac:(lia)) as E.
  pose proof (Z.mod_pos_bound N D HD) as B.
  pose proof (Z.div_mod (N / D) 2 ltac:(lia)) as E2.
  pose proof (Z.mod_pos_bound (N / D) 2 ltac:(lia)) as B2.
  assert (H : N = (N / D / 2) * (2 * D) + ((N / D) mod 2 * D + N mod D)) by nia.
  assert (R : 0 <= (N / D) mod 2 * D + N mod D < 2 * D) by nia.
  split.
  - symmetry. apply (Z.div_unique_pos N (2 * D) _ _ R). lia.
  - symmetry. apply (Z.mod_unique_pos N (2 * D) (N / D / 2) _ R). lia.
Qed.

Lemma shr_1_nonneg (m : Z) (rb sb : bool) :
  0 <= m ->
  shr_1 {| shr_m := m; shr_r := rb; shr_s := sb |}
  = {| shr_m := m / 2; shr_r := Z.odd m; shr_s := orb rb sb |}.
Proof.
  intros Hm. destruct m as [|p|p]; [reflexivity | | lia].
  destruct p as [p|p|]; [| | reflexivity]; unfold shr_1; f_equal.
  - rewrite Pos2Z.inj_xI. apply (Z.div_unique_pos _ 2 _ 1); lia.
  - rewrite Pos2Z.inj_xO. apply (Z.div_unique_pos _ 2 _ 0); lia.
Qed.

Lemma shr_1_represents (r : shr_record) (N D : Z) :
  0 < D -> 0 <= N -> represents r N D -> represents (shr_1 r) N (2 * D).
Proof.
  intros HD HN [Hm Hl].
  destruct (mod_double N D HD HN) as [Ediv Emod].
  pose proof (Z.mod_pos_bound N D HD) as B.
  assert (Hq : 0 <= N / D) by (apply Z.div_pos; lia).
  unfold represents, loc_of in *. rewrite Ediv, Emod.
  destruct r as [m rb sb]. cbn [shr_m] in Hm. subst m.
  assert (Hs : orb rb sb = negb (N mod D =? 0)).
  { destruct (N mod D =? 0); destruct rb, sb; simpl in Hl; try discriminate; reflexivity. }
  rewrite shr_1_nonneg by exact Hq. rewrite Hs. clear Hl Hs.
  cbn [shr_m loc_of_shr_record]. split; [reflexivity|].
  rewrite Zmod_odd.
  destruct (Z.odd (N / D)).
  - destruct (Z.eqb_spec (1 * D + N mod D) 0); [lia|].
    destruct (Z.eqb_spec (N mod D) 0) as [E0|E0]; cbn [negb];
      destruct (Z.compare_spec (2 * (1 * D + N mod D)) (2 * D)); (reflexivity || lia).
  - rewrite Z.mul_0_l, Z.add_0_l.
    destruct (Z.eqb_spec (N mod D) 0) as [E0|E0]; cbn [negb]; [reflexivity|].
    destruct (Z.compare_spec (2 * (N mod D)) (2 * D)); (reflexivity || lia).
Qed.

Lemma iter_shr_1_represents (N : Z) (p : positive) :
  0 <= N ->
  forall r D, 0 < D -> represents r N D ->
              represents (iter_pos shr_1 p r) N (2 ^ Z.pos p * D).
Proof.
  intros HN. induction p as [p IH|p IH|]; intros r D HD Hr; cbn [iter_pos].
  - replace (2 ^ Z.pos p~1 * D) with (2 ^ Z.pos p * (2 ^ Z.pos p * (2 * D))).
    + pose proof (Z.pow_pos_nonneg 2 (Z.pos p)).
      apply IH; [lia | apply IH; [lia | now apply shr_1_represents]].
    + replace (Z.pos p~1) with (Z.pos p + Z.pos p + 1) by lia.
      rewrite !Z.pow_add_r by lia. change (2 ^ 1) with 2. ring.
  - replace (2 ^ Z.pos p~0 * D) with (2 ^ Z.pos p * (2 ^ Z.pos p * D)).
    + pose proof (Z.pow_pos_nonneg 2 (Z.pos p)).
      apply IH; [lia | apply IH; [lia | exact Hr]].
    + replace (Z.pos p~0) with (Z.pos p + Z.pos p) by lia.
      rewrite !Z.pow_add_r by lia. ring.
  - change (2 ^ 1) with 2. now apply shr_1_represents.
Qed.

End Shifting.

Section Rounding.

Lemma digits2_pos_bounds (m : positive) :
  2 ^ (Z.pos (digits2_pos m) - 1) <= Z.pos m < 2 ^ Z.pos (digits2_pos m).
Proof.
  induction m as [m IH|m IH|]; cbn [digits2_pos]; [| | simpl; lia];
    rewrite Pos2Z.inj_succ;
    replace (Z.succ (Z.pos (digits2_pos m)) - 1) with (Z.pos (digits2_pos m) - 1 + 1) by lia;
    unfold Z.succ; rewrite !Z.pow_add_r by lia; change (2 ^ 1) with 2; lia.
Qed.

Lemma digits2_pos_unique (m : positive) (k : Z) :
  2 ^ (k - 1) <= Z.pos m < 2 ^ k -> Z.pos (digits2_pos m) = k.
Proof.
  intros [Hlo Hhi]. pose proof (digits2_pos_bounds m) as [Blo Bhi].
  destruct (Z.lt_trichotomy (Z.pos (digits2_pos m)) k) as [H|[H|H]]; [| exact H |].
  - assert (2 ^ Z.pos (digits2_pos m) <= 2 ^ (k - 1))
      by (apply Z.pow_le_mono_r; lia). lia.
  - assert (0 <= k) by (destruct k; try lia; rewrite Z.pow_neg_r in Hhi; lia).
    assert (2 ^ k <= 2 ^ (Z.pos (digits2_pos m) - 1))
      by (apply Z.pow_le_mono_r; lia). lia.
Qed.

(** Rounding a positive mantissa with at least 53 digits, away from the
    subnormal and overflow ranges: the result is a normalised float within
    half a unit in the last place of the exact value [N / D * 2^e]. *)
Lemma binary_round_aux_spec (s : bool) (m : positive) (e N D : Z) :
  0 < D -> 0 < N -> Z.pos m = N / D ->
  let n := Z.pos (digits2_pos m) - 53 in
  0 <= n -> -1074 <= e + n -> e + n + 1 <= 971 ->
  exists m' k,
    binary_round_aux prec emax s (Z.pos m) e (loc_of N D) = S754_finite s m' (e + k)
    /\ n <= k <= n + 1
    /\ 2 ^ 52 <= Z.pos m' < 2 ^ 53
    /\ Z.pos m' * 2 ^ (k - n) = round_half_even N (2 ^ n * D)
    /\ 2 * Z.abs (Z.pos m' * 2 ^ k * D - N) <= 2 ^ k * D.
Proof.
  intros HD HN Hm n Hn Hlo Hhi.
  pose proof (digits2_pos_bounds m) as [Blo Bhi].
  set (R := round_half_even N (2 ^ n * D)).
  assert (Hpow : 0 < 2 ^ n) by (apply Z.pow_pos_nonneg; lia).
  assert (HD' : 0 < 2 ^ n * D) by lia.
  (* the first shift *)
  assert (Hshift : exists r1,
             shr_fexp prec emax (Z.pos m) e (loc_of N D) = (r1, e + n)
             /\ represents r1 N (2 ^ n * D)).
  { unfold shr_fexp, fexp, emin, prec, emax. cbn [Zdigits2].
    replace (Z.max (Z.pos (digits2_pos m) + e - 53) (3 - 1024 - 53) - e) with n
      by (unfold n; lia).
    unfold shr. destruct n as [|p|p] eqn:En; [| | lia].
    - eexists. split; [rewrite Z.add_0_r; reflexivity|].
      rewrite Hm. change (2 ^ 0) with 1. rewrite Z.mul_1_l. apply represents_of_loc.
    - eexists. split; [reflexivity|].
      apply iter_shr_1_represents; [lia | lia |].
      rewrite Hm. apply represents_of_loc. }
  destruct Hshift as (r1 & Eshift & [Hr1m Hr1l]).
  unfold binary_round_aux. rewrite Eshift, Hr1m, Hr1l.
  rewrite round_nearest_even_loc_of by exact HD'. fold R.
  (* the rounded mantissa *)
  pose proof (round_half_even_near N (2 ^ n * D) HD') as Hnear. fold R in Hnear.
  assert (Hq : N / (2 ^ n * D) = Z.pos m / 2 ^ n).
  { rewrite Hm, Z.mul_comm, Z.div_div by lia. reflexivity. }
  assert (Hqb : 2 ^ 52 <= N / (2 ^ n * D) < 2 ^ 53).
  { rewrite Hq. replace (Z.pos (digits2_pos m)) with (n + 53) in Bhi, Blo by (unfold n; lia).
    replace (n + 53 - 1) with (52 + n) in Blo by lia.
    rewrite Z.pow_add_r in Bhi, Blo by lia. split.
    - apply Z.div_le_lower_bound; lia.
    - apply Z.div_lt_upper_bound; lia. }
  assert (HR : R = N / (2 ^ n * D) \/ R = N / (2 ^ n * D) + 1).
  { unfold R, round_half_even.
    destruct (2 * (N mod (2 ^ n * D)) ?= 2 ^ n * D); auto.
    destruct (Z.even _); auto. }
  assert (HRb : 2 ^ 52 <= R <= 2 ^ 53) by lia.
  destruct (Z.eq_dec R (2 ^ 53)) as [Etop|Etop].
  - (* the mantissa overflowed to 2^53 and is shifted once more *)
    rewrite Etop.
    assert (E2 : shr_fexp prec emax (2 ^ 53) (e + n) loc_Exact
                 = ({| shr_m := 2 ^ 52; shr_r := false; shr_s := false |}, e + n + 1)).
    { unfold shr_fexp, fexp, emin, prec, emax.
      change (Zdigits2 (2 ^ 53)) with 54.
      replace (Z.max (54 + (e + n) - 53) (3 - 1024 - 53) - (e + n)) with 1 by lia.
      reflexivity. }
    rewrite E2. cbn [shr_m]. change (2 ^ 52) with (Z.pos 4503599627370496).
    cbv beta iota. unfold emax, prec.
    destruct (Z.leb_spec (e + n + 1) (1024 - 53)); [| lia].
    exists 4503599627370496%positive, (n + 1).
    split; [f_equal; lia|]. split; [lia|]. split; [lia|].
    split; [replace (n + 1 - n) with 1 by lia; reflexivity|].
    rewrite Etop in Hnear. rewrite Z.pow_add_r by lia.
    change (Z.pos 4503599627370496) with (2 ^ 52). change (2 ^ 1) with 2.
    change (2 ^ 53) with (2 ^ 52 * 2) in Hnear.
    replace (2 ^ 52 * (2 ^ n * 2) * D) with (2 ^ 52 * 2 * (2 ^ n * D)) by ring.
    lia.
  - (* the mantissa has 53 digits *)
    destruct R as [|pr|pr] eqn:ER; [simpl in HRb; lia | | lia].
    assert (Hdg : Z.pos (digits2_pos pr) = 53)
      by (apply digits2_pos_unique; change (53 - 1) with 52; lia).
    assert (E2 : shr_fexp prec emax (Z.pos pr) (e + n) loc_Exact
                 = ({| shr_m := Z.pos pr; shr_r := false; shr_s := false |}, e + n)).
    { unfold shr_fexp, fexp, emin, prec, emax. cbn [Zdigits2]. rewrite Hdg.
      replace (Z.max (53 + (e + n) - 53) (3 - 1024 - 53) - (e + n)) with 0 by lia.
      reflexivity. }
    rewrite E2. cbn [shr_m]. cbv beta iota. unfold emax, prec.
    destruct (Z.leb_spec (e + n) (1024 - 53)); [| lia].
    exists pr, n. split; [reflexivity|]. split; [lia|]. split; [lia|].
    split; [rewrite Z.sub_diag; change (2 ^ 0) with 1; lia|].
    replace (Z.pos pr * 2 ^ n * D) with (Z.pos pr * (2 ^ n * D)) by ring. lia.
Qed.

End Rounding.

Section Binary64.

Lemma pos_iter_xO (a p : positive) :
  Z.pos (Pos.iter xO a p) = Z.pos a * 2 ^ Z.pos p.
Proof.
  induction p as [|p IH] using Pos.peano_ind.
  - cbn [Pos.iter]. rewrite Pos2Z.inj_xO. change (2 ^ 1) with 2. lia.
  - rewrite Pos.iter_succ, Pos2Z.inj_xO, IH, Pos2Z.inj_succ, Z.pow_succ_r by lia.
    ring.
Qed.

Lemma loc_of_1 (N : Z) : loc_of N 1 = loc_Exact.
Proof. unfold loc_of. now rewrite Z.mod_1_r. Qed.

(** The float of a positive integer below 2^53: its mantissa shifted to 53
    digits. *)
Lemma binary_round_int (s : bool) (a : positive) :
  Z.pos a < 2 ^ 53 ->
  exists mz,
    binary_round prec emax s a 0
    = S754_finite s mz (Z.pos (digits2_pos a) - 53)
    /\ Z.pos mz = Z.pos a * 2 ^ (53 - Z.pos (digits2_pos a))
    /\ 2 ^ 52 <= Z.pos mz < 2 ^ 53.
Proof.
  intros Ha. pose proof (digits2_pos_bounds a) as [Blo Bhi].
  set (d := Z.pos (digits2_pos a)) in *.
  assert (Hd : 1 <= d <= 53).
  { split; [unfold d; lia|].
    destruct (Z.le_gt_cases d 53) as [H|H]; [exact H|].
    assert (2 ^ 53 <= 2 ^ (d - 1)) by (apply Z.pow_le_mono_r; lia). lia. }
  assert (Hal : exists mz,
             shl_align a 0 (fexp prec emax (d + 0)) = (mz, d - 53)
             /\ Z.pos mz = Z.pos a * 2 ^ (53 - d)).
  { unfold shl_align, fexp, emin, prec, emax.
    replace (Z.max (d + 0 - 53) (3 - 1024 - 53) - 0) with (d - 53) by lia.
    destruct (d - 53) as [|p|p] eqn:E; [| lia |].
    - exists a. split; [reflexivity|]. replace (53 - d) with 0 by lia. lia.
    - eexists. split.
      + f_equal. unfold fexp, emin. lia.
      + rewrite pos_iter_xO. f_equal. f_equal. lia. }
  destruct Hal as (mz & Eal & Hmz).
  assert (Hmzb : 2 ^ 52 <= Z.pos mz < 2 ^ 53).
  { assert (E52 : 2 ^ 52 = 2 ^ (d - 1) * 2 ^ (53 - d))
      by (rewrite <- Z.pow_add_r by lia; f_equal; lia).
    assert (E53 : 2 ^ 53 = 2 ^ d * 2 ^ (53 - d))
      by (rewrite <- Z.pow_add_r by lia; f_equal; lia).
    assert (0 < 2 ^ (53 - d)) by (apply Z.pow_pos_nonneg; lia).
    rewrite Hmz, E52, E53. split.
    - apply Z.mul_le_mono_nonneg_r; lia.
    - apply Z.mul_lt_mono_pos_r; lia. }
  assert (Hdg : Z.pos (digits2_pos mz) = 53)
    by (apply digits2_pos_unique; change (53 - 1) with 52; exact Hmzb).
  unfold binary_round. fold d. rewrite Eal.
  destruct (binary_round_aux_spec s mz (d - 53) (Z.pos mz) 1)
    as (m' & k & E & Hk & Hm' & HR & _);
    try rewrite Hdg; try lia; [now rewrite Z.div_1_r|].
  rewrite loc_of_1 in E. rewrite E. rewrite Hdg in HR, Hk.
  change (53 - 53) with 0 in HR, Hk. change (2 ^ 0) with 1 in HR.
  unfold round_half_even in HR. rewrite Z.mul_1_l, Z.mod_1_r, Z.div_1_r in HR.
  simpl (2 * 0 ?= 1) in HR. cbv iota in HR.
  assert (k = 0).
  { destruct (Z.eq_dec k 0) as [|Hk1]; [assumption|].
    assert (k = 1) by lia. subst k. change (2 ^ (1 - 0)) with 2 in HR. lia. }
  subst k. change (2 ^ (0 - 0)) with 1 in HR.
  exists mz. split; [| split; assumption].
  f_equal; [| lia]. apply Pos2Z.inj. lia.
Qed.

Lemma float_9087 : float_of_int 9087 = S754_finite false m9087 (-39).
Proof. reflexivity. Qed.

Lemma float_100 : float_of_int 100 = S754_finite false m100 (-46).
Proof. reflexivity. Qed.

(** Division of a normalised float by 9087. *)
Lemma fdiv_9087 (s : bool) (mz : positive) (ea : Z) :
  2 ^ 52 <= Z.pos mz < 2 ^ 53 -> -52 <= ea <= 0 ->
  exists m1 k1,
    fdiv (S754_finite s mz ea) (S754_finite false m9087 (-39))
    = S754_finite s m1 (ea - 14 + k1)
    /\ 0 <= k1 <= 2
    /\ 2 ^ 52 <= Z.pos m1 < 2 ^ 53
    /\ 2 * Z.abs (Z.pos m1 * 2 ^ k1 * Z.pos m9087 - Z.pos mz * 2 ^ 53)
       <= 2 ^ k1 * Z.pos m9087.
Proof.
  intros Hmz Hea.
  assert (Hdg : Z.pos (digits2_pos mz) = 53)
    by (apply digits2_pos_unique; change (53 - 1) with 52; exact Hmz).
  set (N := Z.pos mz * 2 ^ 53). set (D := Z.pos m9087).
  assert (HD : 2 ^ 52 < D < 2 ^ 53) by (unfold D, m9087; simpl; lia).
  assert (Hcore : SFdiv_core_binary prec emax (Z.pos mz) ea (Z.pos m9087) (-39)
                  = (N / D, ea - 14, loc_of N D)).
  { unfold SFdiv_core_binary. cbn [Zdigits2]. rewrite Hdg.
    change (Z.pos (digits2_pos m9087)) with 53.
    unfold fexp, emin, prec, emax.
    replace (Z.min (Z.max (53 + ea - (53 + -39) - 53) (3 - 1024 - 53)) (ea - -39))
      with (ea - 14) by lia.
    replace (ea - -39 - (ea - 14)) with 53 by lia.
    rewrite Z.shiftl_mul_pow2 by lia. fold N. fold D.
    unfold loc_of, Z.div, Z.modulo.
    destruct (Z.div_eucl N D) as [q r].
    unfold new_location. change (Z.even D) with true. cbv iota.
    unfold new_location_even. reflexivity. }
  assert (HN : 2 ^ 105 <= N < 2 ^ 106).
  { unfold N. change (2 ^ 105) with (2 ^ 52 * 2 ^ 53).
    change (2 ^ 106) with (2 ^ 53 * 2 ^ 53). lia. }
  assert (Hq : 2 ^ 52 <= N / D < 2 ^ 54).
  { split.
    - apply Z.div_le_lower_bound; [lia|].
      change (2 ^ 105) with (2 ^ 53 * 2 ^ 52) in HN. nia.
    - apply Z.div_lt_upper_bound; [lia|].
      change (2 ^ 106) with (2 ^ 52 * 2 ^ 54) in HN. nia. }
  destruct (N / D) as [|q|q] eqn:Eq; [simpl in Hq; lia | | lia].
  assert (Hn : 0 <= Z.pos (digits2_pos q) - 53 <= 1).
  { destruct (Z.lt_ge_cases (Z.pos q) (2 ^ 53)).
    - rewrite (digits2_pos_unique q 53); [lia|]. change (53 - 1) with 52. lia.
    - rewrite (digits2_pos_unique q 54); [lia|]. change (54 - 1) with 53. lia. }
  destruct (binary_round_aux_spec (xorb s false) q (ea - 14) N D)
    as (m1 & k1 & E & Hk & Hm1 & _ & Hnear); try lia.
  unfold fdiv, SFdiv. rewrite Hcore, E, xorb_false_r.
  exists m1, k1. repeat split; try lia.
Qed.

(** Multiplication of a normalised float by 100. *)
Lemma fmul_100 (s : bool) (m1 : positive) (e1 : Z) :
  2 ^ 52 <= Z.pos m1 < 2 ^ 53 -> -100 <= e1 <= 100 ->
  exists m2 k2,
    fmul (S754_finite s m1 e1) (S754_finite false m100 (-46))
    = S754_finite s m2 (e1 - 46 + k2)
    /\ 52 <= k2 <= 54
    /\ 2 ^ 52 <= Z.pos m2 < 2 ^ 53
    /\ 2 * Z.abs (Z.pos m2 * 2 ^ k2 - Z.pos m1 * Z.pos m100) <= 2 ^ k2.
Proof.
  intros Hm1 He1.
  set (P := (m1 * m100)%positive).
  assert (HP : 2 ^ 104 <= Z.pos P < 2 ^ 106).
  { unfold P. rewrite Pos2Z.inj_mul.
    assert (2 ^ 52 < Z.pos m100 < 2 ^ 53) by (unfold m100; simpl; lia).
    change (2 ^ 104) with (2 ^ 52 * 2 ^ 52). change (2 ^ 106) with (2 ^ 53 * 2 ^ 53).
    nia. }
  assert (Hn : 52 <= Z.pos (digits2_pos P) - 53 <= 53).
  { destruct (Z.lt_ge_cases (Z.pos P) (2 ^ 105)).
    - rewrite (digits2_pos_unique P 105); [lia|]. change (105 - 1) with 104. lia.
    - rewrite (digits2_pos_unique P 106); [lia|]. change (106 - 1) with 105. lia. }
  destruct (binary_round_aux_spec (xorb s false) P (e1 + -46) (Z.pos P) 1)
    as (m2 & k2 & E & Hk & Hm2 & _ & Hnear); try lia; [now rewrite Z.div_1_r|].
  rewrite loc_of_1 in E.
  unfold fmul, SFmul. fold P. rewrite E, xorb_false_r.
  exists m2, k2. split; [f_equal; lia|]. split; [lia|]. split; [lia|].
  unfold P in Hnear. rewrite Pos2Z.inj_mul in Hnear. lia.
Qed.

End Binary64.

Section Percentage.

Lemma coprime_100_9087 (a : Z) : (100 * a) mod 9087 = 0 -> exists j, a = 9087 * j.
Proof.
  intros H. apply Z.mod_divide in H; [| lia].
  apply Z.gauss in H; [| reflexivity].
  destruct H as [j Hj]. exists j. lia.
Qed.

(** The two rounding errors together stay below the distance from the
    exact quotient to the next integer. *)
Lemma truncated_quotient (a Pd m1 m2 c1 c2 c : Z) :
  0 < a -> 2 ^ 10 <= Pd ->
  c1 = 1 \/ c1 = 2 \/ c1 = 4 ->
  c2 = 2 ^ 52 \/ c2 = 2 ^ 53 \/ c2 = 2 ^ 54 ->
  c * c1 * c2 = 2 ^ 60 ->
  2 * Z.abs (m1 * c1 * (9087 * 2 ^ 39) - a * Pd * 2 ^ 53) <= c1 * (9087 * 2 ^ 39) ->
  2 * Z.abs (m2 * c2 - m1 * (100 * 2 ^ 46)) <= c2 ->
  m2 / (Pd * c) = 100 * a / 9087.
Proof.
  intros Ha HPd Hc1 Hc2 Hc H1 H2.
  pose proof (Z.div_mod (100 * a) 9087 ltac:(lia)) as Ediv.
  pose proof (Z.mod_pos_bound (100 * a) 9087 ltac:(lia)) as Bmod.
  set (n0 := 100 * a / 9087) in *. set (r0 := (100 * a) mod 9087) in *.
  assert (Hn0 : 0 <= n0) by (apply Z.div_pos; lia).
  destruct (Z.eq_dec r0 0) as [Hr0|Hr0].
  - (* the quotient is an integer and both roundings are exact *)
    destruct (coprime_100_9087 a Hr0) as [j Hj].
    assert (Hn0j : n0 = 100 * j) by lia.
    set (y := j * Pd).
    assert (Hz : a * Pd = 9087 * y) by (unfold y; subst a; ring).
    rewrite Hz in H1.
    assert (Hm2 : m2 = n0 * (Pd * c)).
    { replace (n0 * (Pd * c)) with (100 * c * y) by (unfold y; rewrite Hn0j; ring).
      destruct Hc1 as [-> | [-> | ->]], Hc2 as [-> | [-> | ->]]; lia. }
    rewrite Hm2. apply Z.div_mul. nia.
  - (* the quotient is at least 1/9087 away from the integers around it *)
    set (w := n0 * Pd). set (v := r0 * Pd). set (z := a * Pd) in *.
    assert (Hzw : 100 * z = 9087 * w + v) by (unfold z, w, v; nia).
    assert (Hv : Pd <= v <= 9086 * Pd) by (unfold v; nia).
    assert (Hb : c * w <= m2 < c * w + c * Pd).
    { clearbody z w v. clear Ediv Bmod Hr0 Hn0.
      destruct Hc1 as [-> | [-> | ->]], Hc2 as [-> | [-> | ->]]; lia. }
    symmetry. apply (Z.div_unique_pos m2 (Pd * c) n0 (m2 - c * w)).
    + unfold w in Hb. nia.
    + unfold w. ring.
Qed.

End Percentage.

Section Improvement.

(** The percentage of a nonzero difference [±a]: both roundings and the
    truncation give the truncated exact quotient. *)
Lemma int_of_scaled_quotient (s : bool) (a : positive) :
  Z.pos a < 2 ^ 43 ->
  int (fmul (fdiv (binary_round prec emax s a 0) (S754_finite false m9087 (-39)))
            (S754_finite false m100 (-46)))
  = Ok (if s then - (100 * Z.pos a / 9087) else 100 * Z.pos a / 9087).
Proof.
  intros Ha.
  pose proof (digits2_pos_bounds a) as [Blo Bhi].
  set (d := Z.pos (digits2_pos a)) in *.
  assert (Hd : 1 <= d <= 43).
  { split; [unfold d; lia|].
    destruct (Z.le_gt_cases d 43) as [H|H]; [exact H|].
    assert (2 ^ 43 <= 2 ^ (d - 1)) by (apply Z.pow_le_mono_r; lia). lia. }
  destruct (binary_round_int s a) as (mz & -> & Hmz & Hmzb).
  { assert (2 ^ 43 < 2 ^ 53) by (apply Z.pow_lt_mono_r; lia). lia. }
  fold d. fold d in Hmz.
  destruct (fdiv_9087 s mz (d - 53) Hmzb) as (m1 & k1 & -> & Hk1 & Hm1 & H1); [lia|].
  destruct (fmul_100 s m1 (d - 53 - 14 + k1) Hm1) as (m2 & k2 & -> & Hk2 & Hm2 & H2);
    [lia|].
  set (Pd := 2 ^ (53 - d)) in *.
  assert (HPd : 2 ^ 10 <= Pd) by (apply Z.pow_le_mono_r; lia).
  assert (Hc : exists c, 2 ^ (60 - k1 - k2) = c /\ c * 2 ^ k1 * 2 ^ k2 = 2 ^ 60).
  { eexists. split; [reflexivity|].
    rewrite <- !Z.pow_add_r by lia. f_equal. lia. }
  destruct Hc as (c & Ec & Hc).
  assert (Hquot : Z.pos m2 / (Pd * c) = 100 * Z.pos a / 9087).
  { apply (truncated_quotient (Z.pos a) Pd (Z.pos m1) (Z.pos m2) (2 ^ k1) (2 ^ k2) c);
      try lia.
    - assert (k1 = 0 \/ k1 = 1 \/ k1 = 2) as [-> | [-> | ->]] by lia; auto.
    - assert (k2 = 52 \/ k2 = 53 \/ k2 = 54) as [-> | [-> | ->]] by lia; auto.
    - rewrite <- Hmz. unfold m9087 in H1.
      change (Z.pos 4995631080800256) with (9087 * 2 ^ 39) in H1. exact H1.
    - unfold m100 in H2.
      change (Z.pos 7036874417766400) with (100 * 2 ^ 46) in H2. exact H2. }
  unfold int.
  destruct (d - 53 - 14 + k1 - 46 + k2) as [|p|p] eqn:Ee; [lia | lia |].
  replace (2 ^ Z.pos p) with (Pd * c).
  - rewrite Hquot. reflexivity.
  - unfold Pd. rewrite <- Ec, <- Z.pow_add_r by lia. f_equal. lia.
Qed.

Lemma improvement_exact (t : Z) :
  Z.abs (baseline_cpu - t) < 2 ^ 43 ->
  improvement t = Ok (Z.quot ((baseline_cpu - t) * 100) baseline_cpu).
Proof.
  intros Ht. unfold improvement, truediv.
  change (float_of_int baseline_cpu) with (S754_finite false m9087 (-39)).
  change (float_of_int 100) with (S754_finite false m100 (-46)).
  unfold float_of_int, binary_normalize, baseline_cpu in *.
  destruct (9087 - t) as [|a|a] eqn:Ex.
  - reflexivity.
  - rewrite int_of_scaled_quotient by lia. f_equal.
    rewrite Z.quot_div_nonneg by lia. f_equal. lia.
  - rewrite int_of_scaled_quotient by lia. f_equal.
    replace (Z.neg a * 100) with (- (100 * Z.pos a)) by lia.
    rewrite Z.quot_opp_l by lia. rewrite Z.quot_div_nonneg by lia. reflexivity.
Qed.

End Improvement.

(** * Properties of the report *)

(** C1 (failing input).  The guards of the
    per-sample loop test only the upper bound, so a negative index, which is
    out of range for a 0-based table, is not skipped: with one-entry tables
    the stack index -2 raises IndexError, which ends the whole run, and the
    stack index -1 resolves to a name that is counted. *)
Theorem C1_negative_index_not_skipped :
  resolve_calls {| frame := Some [Some 0]; st_other_keys := false |}
                {| func := Some [Some 0] |} ["foo"] [Some (-2)]
  = Err IndexError
  /\ snd (process_thread 0 (table_thread [Some 0] [Some 0] ["foo"] [Some (-2)]) (0, 0))
     = Raised IndexError
  /\ resolve_calls {| frame := Some [Some 0]; st_other_keys := false |}
                   {| func := Some [Some 0] |} ["foo"] [Some (-1)]
     = Ok ["foo"]
  /\ analyze_functions (table_thread [Some 0] [Some 0] ["foo"] [Some (-1)])
     = (top_lines [("foo", 1%nat)], Returned tt).
Proof. repeat split; reflexivity. Qed.

(** C2 (counterexample): on the stated input the analysis does not report
    foo: 2 and bar: 1. *)
Lemma C2_counterexample :
  analyze_functions example_thread
  <> (top_lines [("foo", 2%nat); ("bar", 1%nat)], Returned tt).
Proof. discriminate. Qed.

(** C2 (amended): with stack [0, 0, 1], stackTable.frame [0, 1],
    frameTable.func [10, 11] and funcTable.name ["foo", "bar"], every sample
    is skipped at the third stage (10 and 11 are not below the length 2 of
    the name table), no name is resolved and nothing is reported; with
    frameTable.func [0, 1] instead, the report is foo: 2 then bar: 1. *)
Theorem C2_example_resolution (th : Thread) (funcs : list (option Z)) :
  stack (samples th) = Some [Some 0; Some 0; Some 1] ->
  frame (stackTable th) = Some [Some 0; Some 1] ->
  func (frameTable th) = Some funcs ->
  f_name (funcTable th) = Some ["foo"; "bar"] ->
  (funcs = [Some 10; Some 11] ->
   resolve_calls (stackTable th) (frameTable th) ["foo"; "bar"]
                 [Some 0; Some 0; Some 1] = Ok []
   /\ analyze_functions th = ([], Returned tt))
  /\ (funcs = [Some 0; Some 1] ->
      most_common 5 (Counter ["foo"; "foo"; "bar"]) = [("foo", 2%nat); ("bar", 1%nat)]
      /\ analyze_functions th
         = ([ Stdout "  Топ-5 функций по семплам:";
              Stdout "    foo: 2"; Stdout "    bar: 1" ], Returned tt)).
Proof.
  intros Hs Hf Hg Hn. unfold analyze_functions, resolve_calls, truthy_table.
  rewrite Hs, Hf, Hn.
  destruct (stackTable th) as [fr ok], (frameTable th) as [fn].
  simpl in Hf, Hg. subst fr fn.
  split; intros ->; split; reflexivity.
Qed.

Lemma C2_example_resolution_witness :
  (resolve_calls (stackTable example_thread) (frameTable example_thread)
                 ["foo"; "bar"] [Some 0; Some 0; Some 1] = Ok []
   /\ analyze_functions example_thread = ([], Returned tt)).
Proof.
  apply (C2_example_resolution example_thread [Some 10; Some 11]); reflexivity.
Defined.

(** C3 (counterexample): the first thread of a document, when it has no
    name, is not shown as "Thread 1". *)
Lemma C3_counterexample :
  display_name 0 bare_thread <> "Thread 1"
  /\ hd_error (fst (thread_loop 0 [bare_thread] (0, 0)))
     = Some (Stdout "Поток 1: Thread 0").
Proof. split; [discriminate | reflexivity]. Qed.

(** C3 (amended): a thread without a name field is displayed as
    "Thread <k>" where k is its 0-based position in the document; the
    1-based position k + 1 appears only in the block heading
    "Поток <k + 1>".  The loop prints that heading for the thread at
    position k whenever no earlier thread raised. *)
Theorem C3_default_name_is_zero_based (ths : list Thread) (k : nat) (th : Thread) :
  nth_error ths k = Some th ->
  t_name th = None ->
  forallb well_indexed (firstn k ths) = true ->
  display_name k th = "Thread " ++ str (Z.of_nat k)
  /\ exists before after,
      fst (thread_loop 0 ths (0, 0))
      = (before
         ++ Stdout ("Поток " ++ str (Z.of_nat k + 1) ++ ": Thread " ++ str (Z.of_nat k))
         :: after)%list.
Proof.
  intros Hk Hname Hwi.
  assert (Hd : display_name k th = "Thread " ++ str (Z.of_nat k))
    by (unfold display_name; now rewrite Hname).
  split; [exact Hd|].
  destruct (thread_loop_reaches ths k th 0 (0, 0) Hk Hwi)
    as (before & totals_k & after & E).
  destruct (process_thread_header k th totals_k) as (rest & Hh).
  simpl in E. rewrite Hh in E. unfold header_lines in E. rewrite Hd in E.
  exists before. eexists. rewrite E. simpl. reflexivity.
Qed.

Lemma C3_default_name_is_zero_based_witness :
  display_name 1 bare_thread = "Thread 1"
  /\ exists before after,
      fst (thread_loop 0 [bare_thread; bare_thread] (0, 0))
      = (before ++ Stdout "Поток 2: Thread 1" :: after)%list.
Proof.
  apply (C3_default_name_is_zero_based [bare_thread; bare_thread] 1 bare_thread);
    reflexivity.
Defined.

(** C4 (counterexample): for total_cpu_time = 9088, which exceeds 9087, the
    printed percentage is 0, not a negative number. *)
Lemma C4_counterexample :
  9087 < 9088 /\ exists pct, improvement 9088 = Ok pct /\ ~ pct < 0.
Proof.
  split; [reflexivity|]. exists 0. split; [reflexivity | discriminate].
Qed.

(** C4 (amended): for every total_cpu_time within 2^43 of 9087, the printed
    improvement percentage, computed on binary64 floats, is the exact
    quotient (9087 - total_cpu_time) * 100 / 9087 truncated toward zero,
    with no clamping; above 9087 it is never positive: it is 0 for
    total_cpu_time from 9088 to 9177 and negative from 9178 on. *)
Theorem C4_improvement_percentage (total_cpu_time : Z) :
  Z.abs (9087 - total_cpu_time) < 2 ^ 43 ->
  let pct := Z.quot ((9087 - total_cpu_time) * 100) 9087 in
  improvement total_cpu_time = Ok pct
  /\ (forall total_samples,
         In (Stdout ("  Улучшение: ~" ++ str pct ++ "% снижение CPU времени"))
            (fst (print_summary (total_samples, total_cpu_time))))
  /\ (9087 < total_cpu_time -> pct <= 0)
  /\ (9088 <= total_cpu_time <= 9177 -> pct = 0)
  /\ (9178 <= total_cpu_time -> pct < 0).
Proof.
  intros Hrange pct.
  pose proof (improvement_exact total_cpu_time Hrange) as Himp.
  unfold baseline_cpu in Himp. fold pct in Himp.
  split; [exact Himp|]. split.
  { intros total_samples. rewrite print_summary_trace, Himp. cbn [fst].
    apply in_or_app. right. left. reflexivity. }
  assert (Hneg : 9087 < total_cpu_time ->
                 pct = - ((total_cpu_time - 9087) * 100 / 9087)).
  { intros H. unfold pct.
    replace ((9087 - total_cpu_time) * 100)
      with (- ((total_cpu_time - 9087) * 100)) by ring.
    rewrite Z.quot_opp_l by lia. rewrite Z.quot_div_nonneg by lia. reflexivity. }
  split; [| split]; intros H; rewrite Hneg by lia.
  - assert (0 <= (total_cpu_time - 9087) * 100 / 9087) by (apply Z.div_pos; lia). lia.
  - rewrite Z.div_small by lia. reflexivity.
  - assert (1 <= (total_cpu_time - 9087) * 100 / 9087)
      by (apply Z.div_le_lower_bound; lia). lia.
Qed.

Lemma C4_improvement_percentage_witness :
  Z.abs (9087 - 18174) < 2 ^ 43 /\ improvement 18174 = Ok (-100).
Proof.
  split; [reflexivity|].
  exact (proj1 (C4_improvement_percentage 18174 eq_refl)).
Defined.

(** C7: a thread whose samples.length is 0 produces the name, main-thread
    and sample-count lines, followed only by the blank line that closes
    every block, and leaves both totals as they were. *)
Theorem C7_empty_thread_block (i : nat) (th : Thread) (totals : Z * Z) :
  sample_count th = 0 ->
  process_thread i th totals
  = ([ Stdout ("Поток " ++ str (Z.of_nat i + 1) ++ ": " ++ display_name i th);
       Stdout ("  Основной поток: " ++ str_bool (get (isMainThread th) false));
       Stdout "  Количество семплов: 0";
       Stdout "" ],
     Returned totals).
Proof.
  intros H. rewrite process_thread_skip by lia.
  unfold header_lines. rewrite H. reflexivity.
Qed.

Lemma C7_empty_thread_block_witness :
  process_thread 0 (sampled_thread (Some 0) (Some [f1_5]) (Some [100])) (7, 9)
  = ([ Stdout "Поток 1: Thread 0"; Stdout "  Основной поток: False";
       Stdout "  Количество семплов: 0"; Stdout "" ],
     Returned (7, 9)).
Proof.
  apply (C7_empty_thread_block 0 (sampled_thread (Some 0) (Some [f1_5]) (Some [100]))).
  reflexivity.
Defined.

(** C8: when the decompression subprocess returns a nonzero status the
    script prints the captured error stream and exits with status 1, and
    the file is never opened; on status 0 the file is opened and the parse
    phase runs. *)
Theorem C8_decompression_failure (w : World) (out err : string) (code : Z) :
  subprocess w = (out, err, code) ->
  (code <> 0 ->
   main w = ([ Stdout "Распаковываем профиль..."; Spawned decompress_cmd;
               Stdout ("Ошибка распаковки: " ++ err) ], Exited 1)
   /\ forall path, ~ In (Opened path) (fst (main w)))
  /\ (code = 0 ->
      exists rest,
        fst (main w)
        = ([ Stdout "Распаковываем профиль..."; Spawned decompress_cmd;
             Stdout "Анализируем профиль..."; Opened "optimized-profile.json" ]
           ++ rest)%list).
Proof.
  intros Hsub.
  assert (Hfail : code <> 0 ->
                  main w = ([ Stdout "Распаковываем профиль..."; Spawned decompress_cmd;
                              Stdout ("Ошибка распаковки: " ++ err) ], Exited 1)).
  { intros Hcode. unfold main, run_cmd. rewrite bind_print, bind_returned, Hsub.
    cbv beta iota zeta.
    destruct (Z.eqb_spec code 0); [contradiction|]. reflexivity. }
  split.
  - intros Hcode. split; [auto|].
    rewrite (Hfail Hcode). simpl. intros path [H|[H|[H|[]]]]; discriminate.
  - intros ->. unfold main, run_cmd, load. rewrite bind_print, bind_returned, Hsub.
    cbv beta iota zeta. simpl negb. cbv iota. rewrite bind_print.
    destruct (json_file w) as [d|e]; simpl.
    + destruct (report d). eexists. reflexivity.
    + eexists. reflexivity.
Qed.

Lemma C8_decompression_failure_witness :
  main {| subprocess := ("", "gzip: bad header", 1); json_file := Err LoadError |}
  = ([ Stdout "Распаковываем профиль..."; Spawned decompress_cmd;
       Stdout "Ошибка распаковки: gzip: bad header" ], Exited 1).
Proof.
  apply (C8_decompression_failure
           {| subprocess := ("", "gzip: bad header", 1); json_file := Err LoadError |}
           "" "gzip: bad header" 1 eq_refl).
  discriminate.
Defined.

(** * Further properties *)

(** ** Skipped samples and the resolved names *)

Section Skipping.

Variables (st : StackTable) (ft : FrameTable) (names : list string).

Lemma nth_opt_subscript {A} (l : list A) (i : Z) (a : A) :
  nth_opt l i = Some a -> subscript l i = Ok a.
Proof.
  unfold nth_opt, subscript. destruct (i <? 0) eqn:E; [discriminate|].
  rewrite E. now intros ->.
Qed.

Lemma nth_opt_in_range {A} (l : list A) (i : Z) :
  0 <= i < len l -> exists a, nth_opt l i = Some a /\ In a l.
Proof.
  intros [H0 H1]. unfold nth_opt. destruct (Z.ltb_spec i 0); [lia|].
  destruct (nth_error l (Z.to_nat i)) eqn:E.
  - exists a. split; [reflexivity | eapply nth_error_In; eauto].
  - apply nth_error_None in E. unfold len in H1. lia.
Qed.

Lemma nth_opt_high {A} (l : list A) (i : Z) : len l <= i -> nth_opt l i = None.
Proof.
  intros H. unfold nth_opt. destruct (Z.ltb_spec i 0); [reflexivity|].
  apply nth_error_None. unfold len in H. lia.
Qed.

Lemma frame_key_present (s : Z) :
  s < len (get (frame st) []) -> 0 <= s ->
  exists frames, frame st = Some frames /\ get (frame st) [] = frames.
Proof.
  destruct (frame st) as [frames|]; simpl; intros; [eauto|].
  unfold len in *. simpl in *. lia.
Qed.

Lemma for_in_app {A S} (body : S -> A -> Result S) (l1 l2 : list A) (s : S) :
  for_in (l1 ++ l2) body s = rbind (for_in l1 body s) (for_in l2 body).
Proof.
  revert s. induction l1 as [|x l1 IH]; intros s; simpl; [reflexivity|].
  destruct (body s x); simpl; auto.
Qed.

(** With 0-based indices and no null inside the tables, one iteration
    appends the looked-up name, if there is one. *)
Lemma resolve_sample_lookup (calls : list string) (x : option Z) :
  index_ok true x = true ->
  forallb (index_ok false) (get (frame st) []) = true ->
  forallb (index_ok false) (get (func ft) []) = true ->
  resolve_sample st ft names calls x
  = Ok (calls ++ match lookup_name st ft names x with
                 | Some nm => [nm]
                 | None => []
                 end)%list.
Proof.
  intros Hx Hframes Hfuncs. unfold resolve_sample, lookup_name.
  destruct x as [s|]; [| now rewrite app_nil_r].
  simpl in Hx. apply Z.leb_le in Hx.
  destruct (Z.ltb_spec s (len (get (frame st) []))) as [Hs|Hs];
    [| rewrite nth_opt_high by lia; now rewrite app_nil_r].
  destruct (frame_key_present s Hs Hx) as (frames & Efr & Eget).
  rewrite Eget in *. rewrite Efr. cbn [item rbind].
  destruct (nth_opt_in_range frames s) as (fi & Ef & Hfi); [lia|].
  rewrite Ef, (nth_opt_subscript _ _ _ Ef). cbn [rbind].
  rewrite forallb_forall in Hframes. specialize (Hframes _ Hfi).
  destruct fi as [f|]; [| discriminate]. simpl in Hframes. apply Z.leb_le in Hframes.
  cbn [lt rbind].
  destruct (Z.ltb_spec f (len (get (func ft) []))) as [Hf|Hf];
    [| rewrite nth_opt_high by lia; now rewrite app_nil_r].
  destruct (func ft) as [funcs|] eqn:Efn;
    [| unfold len in Hf; simpl in Hf; lia].
  cbn [get] in *. cbn [item rbind subscript_at].
  destruct (nth_opt_in_range funcs f) as (gi & Eg & Hgi); [lia|].
  rewrite Eg, (nth_opt_subscript _ _ _ Eg). cbn [rbind].
  rewrite forallb_forall in Hfuncs. specialize (Hfuncs _ Hgi).
  destruct gi as [g|]; [| discriminate]. simpl in Hfuncs. apply Z.leb_le in Hfuncs.
  cbn [lt rbind].
  destruct (Z.ltb_spec g (len names)) as [Hg|Hg];
    [| rewrite nth_opt_high by lia; now rewrite app_nil_r].
  destruct (nth_opt_in_range names g) as (nm & En & _); [lia|].
  cbn [subscript_at]. rewrite En, (nth_opt_subscript _ _ _ En). reflexivity.
Qed.

Lemma for_in_lookup (stacks : list (option Z)) :
  forallb (index_ok true) stacks = true ->
  forallb (index_ok false) (get (frame st) []) = true ->
  forallb (index_ok false) (get (func ft) []) = true ->
  forall calls,
    for_in stacks (resolve_sample st ft names) calls
    = Ok (calls ++ lookup_names st ft names stacks)%list.
Proof.
  intros Hs Hframes Hfuncs.
  induction stacks as [|x stacks IH]; intros calls; simpl.
  - now rewrite app_nil_r.
  - simpl in Hs. apply andb_prop in Hs. destruct Hs as [Hx Hs].
    rewrite (resolve_sample_lookup calls x Hx Hframes Hfuncs). simpl.
    rewrite (IH Hs). now rewrite <- app_assoc.
Qed.

(** One iteration appends at most one name. *)
Lemma resolve_sample_length (calls calls' : list string) (x : option Z) :
  resolve_sample st ft names calls x = Ok calls' ->
  (List.length calls' <= S (List.length calls))%nat.
Proof.
  unfold resolve_sample. destruct x as [s|]; [| intros [= <-]; lia].
  destruct (s <? _); [| intros [= <-]; lia].
  destruct (item (frame st)) as [frames|]; simpl; [| discriminate].
  destruct (subscript frames s) as [fi|]; simpl; [| discriminate].
  destruct (lt fi _) as [[|]|]; simpl; try discriminate; [| intros [= <-]; lia].
  destruct (item (func ft)) as [funcs|]; simpl; [| discriminate].
  destruct (subscript_at funcs fi) as [gi|]; simpl; [| discriminate].
  destruct (lt gi _) as [[|]|]; simpl; try discriminate; [| intros [= <-]; lia].
  destruct (subscript_at names gi) as [nm|]; simpl; [| discriminate].
  intros [= <-]. rewrite length_app. simpl. lia.
Qed.

Lemma for_in_length (stacks : list (option Z)) :
  forall calls calls',
    for_in stacks (resolve_sample st ft names) calls = Ok calls' ->
    (List.length calls' <= List.length calls + List.length stacks)%nat.
Proof.
  induction stacks as [|x stacks IH]; intros calls calls'; simpl.
  - intros [= <-]. lia.
  - destruct (resolve_sample st ft names calls x) as [c1|] eqn:E; simpl; [| discriminate].
    intros H. apply IH in H. apply resolve_sample_length in E. lia.
Qed.

End Skipping.

(** X2: when the stack indices are 0-based or null and the table entries
    are 0-based, the loop never raises and collects, in sample order, the
    name each sample reaches through stackTable.frame, frameTable.func and
    funcTable.name, leaving out the samples that reach none. *)
Theorem X2_resolution_is_filter_map (st : StackTable) (ft : FrameTable)
    (names : list string) (stacks : list (option Z)) :
  forallb (index_ok true) stacks = true ->
  forallb (index_ok false) (get (frame st) []) = true ->
  forallb (index_ok false) (get (func ft) []) = true ->
  resolve_calls st ft names stacks = Ok (lookup_names st ft names stacks).
Proof.
  intros Hs Hframes Hfuncs. unfold resolve_calls.
  now rewrite (for_in_lookup st ft names stacks Hs Hframes Hfuncs).
Qed.

Lemma X2_resolution_is_filter_map_witness :
  resolve_calls {| frame := Some [Some 1; Some 0]; st_other_keys := false |}
                {| func := Some [Some 0; Some 5] |} ["foo"]
                [Some 1; None; Some 0; Some 9]
  = Ok ["foo"].
Proof.
  apply (X2_resolution_is_filter_map
           {| frame := Some [Some 1; Some 0]; st_other_keys := false |}
           {| func := Some [Some 0; Some 5] |} ["foo"]
           [Some 1; None; Some 0; Some 9]); reflexivity.
Defined.

(** ** Counts and ties *)

Section Counts.

Lemma total_count_incr (k : string) (c : list (string * nat)) :
  total_count (counter_incr k c) = S (total_count c).
Proof.
  induction c as [|[k0 n] c IH]; simpl; [reflexivity|].
  destruct (String.eqb k k0); simpl; [reflexivity|].
  rewrite IH. lia.
Qed.

Lemma total_count_Counter (l : list string) :
  total_count (Counter l) = List.length l.
Proof.
  unfold Counter.
  assert (H : forall c, total_count (fold_left (fun c k => counter_incr k c) l c)
                        = (total_count c + List.length l)%nat).
  { induction l as [|x l IH]; intros c; simpl; [lia|].
    rewrite IH, total_count_incr. lia. }
  apply (H []).
Qed.

Lemma total_count_perm (l l' : list (string * nat)) :
  Permutation l l' -> total_count l = total_count l'.
Proof. induction 1; simpl; lia. Qed.

Lemma total_count_firstn (n : nat) (l : list (string * nat)) :
  (total_count (firstn n l) <= total_count l)%nat
  /\ ((List.length l <= n)%nat -> total_count (firstn n l) = total_count l).
Proof.
  split.
  - revert l. induction n as [|n IH]; intros [|p l]; simpl; try lia.
    specialize (IH l). lia.
  - intros H. now rewrite firstn_all2.
Qed.

Lemma counter_incr_keys (k : string) (c : list (string * nat)) :
  map fst (counter_incr k c)
  = if existsb (String.eqb k) (map fst c) then map fst c
    else (map fst c ++ [k])%list.
Proof.
  induction c as [|[k0 n] c IH]; simpl; [reflexivity|].
  destruct (String.eqb k k0); simpl; [reflexivity|].
  rewrite IH. destruct (existsb _ _); reflexivity.
Qed.

Lemma Counter_keys (l : list string) : map fst (Counter l) = first_seen l.
Proof.
  unfold Counter, first_seen.
  assert (H : forall c,
             map fst (fold_left (fun c k => counter_incr k c) l c)
             = fold_left (fun acc k => if existsb (String.eqb k) acc then acc
                                       else (acc ++ [k])%list) l (map fst c)).
  { induction l as [|x l IH]; intros c; simpl; [reflexivity|].
    rewrite IH, counter_incr_keys. reflexivity. }
  apply (H []).
Qed.

Lemma insert_desc_stable (c : nat) (x : string * nat) (l : list (string * nat)) :
  filter (has_count c) (insert_desc x l) = filter (has_count c) (x :: l).
Proof.
  induction l as [|y l IH]; [reflexivity|].
  cbn [insert_desc]. destruct (Nat.ltb_spec (snd x) (snd y)) as [Hlt|Hge];
    [| reflexivity].
  cbn [filter] in *. rewrite IH. unfold has_count.
  destruct (Nat.eqb_spec (snd x) c), (Nat.eqb_spec (snd y) c); try reflexivity.
  lia.
Qed.

Lemma sort_desc_stable (c : nat) (l : list (string * nat)) :
  filter (has_count c) (sort_desc l) = filter (has_count c) l.
Proof.
  induction l as [|x l IH]; [reflexivity|].
  cbn [sort_desc fold_right]. fold (sort_desc l).
  rewrite insert_desc_stable. cbn [filter]. now rewrite IH.
Qed.

Lemma filter_counts_keys (calls : list string) (c : nat) (l : list (string * nat)) :
  (forall k n, In (k, n) l -> n = occurrences k calls) ->
  map fst (filter (has_count c) l)
  = filter (fun k => (occurrences k calls =? c)%nat) (map fst l).
Proof.
  induction l as [|[k n] l IH]; intros H; [reflexivity|].
  cbn [filter map fst]. unfold has_count at 1. cbn [snd].
  rewrite (H k n) by now left.
  destruct (occurrences k calls =? c)%nat; cbn [map fst]; rewrite IH;
    auto; intros; apply H; now right.
Qed.

End Counts.

(** X3: the loop collects at most one name per sample, so the counts of a
    top list never add up to more than the number of samples; the full
    Counter accounts for every resolved name exactly once, and so does the
    top list when there are no more distinct names than it has room for. *)
Theorem X3_counts_bounded_by_samples (st : StackTable) (ft : FrameTable)
    (names : list string) (stacks : list (option Z)) (calls : list string) (n : nat) :
  resolve_calls st ft names stacks = Ok calls ->
  (List.length calls <= List.length stacks)%nat
  /\ total_count (Counter calls) = List.length calls
  /\ (total_count (most_common n (Counter calls)) <= List.length stacks)%nat
  /\ ((List.length (Counter calls) <= n)%nat ->
      total_count (most_common n (Counter calls)) = List.length calls).
Proof.
  intros H. apply for_in_length in H. simpl in H.
  pose proof (total_count_Counter calls) as Hc.
  pose proof (total_count_perm _ _ (sort_desc_perm (Counter calls))) as Hp.
  destruct (total_count_firstn n (sort_desc (Counter calls))) as [Hle Heq].
  unfold most_common. repeat split; try lia.
  intros Hn. rewrite Heq; [lia|].
  now rewrite (Permutation_length (sort_desc_perm (Counter calls))).
Qed.

Lemma X3_counts_bounded_by_samples_witness :
  (total_count (most_common 1 (Counter ["foo"; "bar"; "foo"])) <= 4)%nat.
Proof.
  apply (X3_counts_bounded_by_samples
           {| frame := Some [Some 0; Some 1]; st_other_keys := false |}
           {| func := Some [Some 0; Some 1] |} ["foo"; "bar"]
           [Some 0; Some 1; None; Some 0] ["foo"; "bar"; "foo"] 1).
  reflexivity.
Defined.

(** X4: the Counter lists the names in the order of their first
    occurrence, and the descending sort behind most_common is stable: the
    names that share a count appear in the ranking in first-seen order. *)
Theorem X4_ties_keep_first_seen_order (calls : list string) (c : nat) :
  map fst (Counter calls) = first_seen calls
  /\ map fst (filter (has_count c) (sort_desc (Counter calls)))
     = filter (fun k => (occurrences k calls =? c)%nat) (first_seen calls).
Proof.
  split; [apply Counter_keys|].
  rewrite sort_desc_stable, <- Counter_keys.
  apply filter_counts_keys. intros k n H. now apply Counter_count in H.
Qed.

(** ** What a run prints and how it ends *)

Section Runs.

Lemma bind_fst {A B} (m : M A) (k : A -> M B) :
  fst (bind m k)
  = (fst m ++ match snd m with
              | Returned a => fst (k a)
              | _ => []
              end)%list.
Proof.
  destruct m as [tr [a|e|c]]; simpl; rewrite ?app_nil_r; try reflexivity.
  destruct (k a); reflexivity.
Qed.

Lemma bind_snd {A B} (m : M A) (k : A -> M B) :
  snd (bind m k)
  = match snd m with
    | Returned a => snd (k a)
    | Raised e => Raised e
    | Exited c => Exited c
    end.
Proof.
  destruct m as [tr [a|e|c]]; simpl; try reflexivity.
  destruct (k a); reflexivity.
Qed.

(** The analysis returns or raises, and raises only on an index that is
    negative, or null inside a table. *)
Lemma analyze_functions_outcome (th : Thread) :
  snd (analyze_functions th) = Returned tt
  \/ exists e, snd (analyze_functions th) = Raised e /\ well_indexed th = false.
Proof.
  destruct (well_indexed th) eqn:Hwi.
  - left. now apply analyze_functions_returns.
  - unfold analyze_functions.
    destruct (stack (samples th)) as [stacks|]; [| now left].
    destruct (truthy_table (stackTable th)); [| now left].
    destruct (nonempty stacks && _); [| now left].
    destruct (resolve_calls _ _ _ stacks) as [calls|e]; simpl.
    + left. destruct calls; simpl; [reflexivity|].
      now rewrite print_top_trace.
    + right. exists e. split; reflexivity.
Qed.

Lemma top_lines_block (top : list (string * nat)) :
  forallb block_line (top_lines top) = true.
Proof.
  unfold top_lines. cbn [forallb].
  replace (block_line (Stdout "  Топ-5 функций по семплам:")) with true by reflexivity.
  induction top as [|p l IH]; [reflexivity|].
  cbn [map forallb andb] in *. rewrite IH. reflexivity.
Qed.

Lemma analyze_functions_lines (th : Thread) :
  forallb block_line (fst (analyze_functions th)) = true.
Proof.
  destruct (analyze_functions th) as [tr o] eqn:E.
  destruct (analyze_functions_trace th tr o E)
    as [->|(stacks & calls & _ & _ & _ & -> & _)]; [reflexivity|].
  apply top_lines_block.
Qed.

Lemma heading_block (text : string) :
  block_line (Stdout ("Поток " ++ text)) = true.
Proof. destruct text; reflexivity. Qed.

Lemma header_lines_block (i : nat) (th : Thread) :
  forallb block_line (header_lines i th) = true.
Proof.
  unfold header_lines. cbn [forallb]. rewrite heading_block. reflexivity.
Qed.

Lemma process_thread_lines (i : nat) (th : Thread) (totals : Z * Z) :
  forallb block_line (fst (process_thread i th totals)) = true.
Proof.
  destruct totals as [ts tc].
  destruct (Z.lt_ge_cases 0 (sample_count th)).
  - rewrite process_thread_derive by assumption. cbn [fst].
    rewrite !forallb_app, analyze_functions_lines, header_lines_block.
    destruct (snd (analyze_functions th)); reflexivity.
  - rewrite process_thread_skip by lia. cbn [fst].
    rewrite forallb_app, header_lines_block. reflexivity.
Qed.

Lemma thread_loop_lines (ths : list Thread) :
  forall i totals, forallb block_line (fst (thread_loop i ths totals)) = true.
Proof.
  induction ths as [|th ths IH]; intros i totals; cbn [thread_loop]; [reflexivity|].
  rewrite bind_fst, forallb_app, process_thread_lines. cbn [andb].
  destruct (snd (process_thread i th totals)); [apply IH | reflexivity | reflexivity].
Qed.

Lemma block_lines_stdout (l : list event) :
  forallb block_line l = true -> forallb is_stdout l = true.
Proof.
  induction l as [|[text|cmd|path] l IH]; simpl; try discriminate; auto.
  intros H. apply andb_prop in H. tauto.
Qed.

Lemma print_summary_stdout (totals : Z * Z) :
  forallb is_stdout (fst (print_summary totals)) = true.
Proof.
  destruct totals as [ts tc]. rewrite print_summary_trace. cbn [fst].
  rewrite forallb_app. destruct (improvement tc); reflexivity.
Qed.

Lemma report_stdout (d : Document) : forallb is_stdout (fst (report d)) = true.
Proof.
  destruct d as [[ths|]]; [| reflexivity].
  rewrite report_trace. cbn [fst]. rewrite !forallb_app.
  rewrite (block_lines_stdout _ (thread_loop_lines ths 0 (0, 0))).
  destruct (snd (thread_loop 0 ths (0, 0))); try reflexivity.
  now rewrite print_summary_stdout.
Qed.

Lemma filter_stdout (l : list event) :
  forallb is_stdout l = true -> filter (fun e => negb (is_stdout e)) l = [].
Proof.
  induction l as [|e l IH]; simpl; [reflexivity|].
  intros H. apply andb_prop in H. destruct H as [-> H]. simpl. auto.
Qed.

(** The loop over the threads ends by returning the two totals or by
    raising out of the function analysis of some thread. *)
Lemma thread_loop_outcome (ths : list Thread) :
  forall i ts tc,
    match snd (thread_loop i ths (ts, tc)) with
    | Returned totals =>
        totals = (ts + sum_over sample_share ths, tc + sum_over cpu_share ths)
    | Raised _ =>
        exists th, In th ths /\ 0 < sample_count th /\ well_indexed th = false
    | Exited _ => False
    end.
Proof.
  induction ths as [|th ths IH]; intros i ts tc.
  - simpl. apply f_equal2; lia.
  - unfold sum_over; cbn [thread_loop fold_right];
      fold (sum_over sample_share ths); fold (sum_over cpu_share ths).
    rewrite bind_snd. unfold sample_share at 1, cpu_share at 1.
    destruct (Z.gtb_spec (sample_count th) 0) as [Hpos|Hz].
    + rewrite process_thread_derive by lia. cbn [snd].
      destruct (analyze_functions_outcome th) as [->|(e & -> & Hwi)]; cbn [continue].
      * specialize (IH (S i) (ts + sample_count th) (tc + cpu_sum th)).
        destruct (snd (thread_loop (S i) ths _)) as [totals|e|c]; [| | exact IH].
        -- rewrite IH. apply f_equal2; lia.
        -- destruct IH as (th' & Hin & H). exists th'. split; [now right | exact H].
      * exists th. split; [now left | split; [lia | exact Hwi]].
    + rewrite process_thread_skip by lia. cbn [snd].
      specialize (IH (S i) ts tc).
      destruct (snd (thread_loop (S i) ths _)) as [totals|e|c]; [| | exact IH].
      * rewrite IH. apply f_equal2; lia.
      * destruct IH as (th' & Hin & H). exists th'. split; [now right | exact H].
Qed.

Lemma main_failed (w : World) :
  returncode w <> 0 ->
  main w = ([ Stdout "Распаковываем профиль..."; Spawned decompress_cmd;
              Stdout ("Ошибка распаковки: " ++ snd (fst (subprocess w))) ], Exited 1).
Proof.
  unfold returncode, main, run_cmd. destruct (subprocess w) as [[out err] code].
  cbn [fst snd]. intros Hcode. rewrite bind_print, bind_returned.
  cbv beta iota zeta. destruct (Z.eqb_spec code 0); [contradiction | reflexivity].
Qed.

Lemma main_decompressed (w : World) :
  returncode w = 0 ->
  main w
  = (([ Stdout "Распаковываем профиль..."; Spawned decompress_cmd;
        Stdout "Анализируем профиль..."; Opened "optimized-profile.json" ]
      ++ match json_file w with
         | Ok d => fst (report d)
         | Err _ => []
         end)%list,
     match json_file w with
     | Ok d => snd (report d)
     | Err e => Raised e
     end).
Proof.
  unfold returncode, main, run_cmd, load. destruct (subprocess w) as [[out err] code].
  cbn [fst snd]. intros ->. rewrite bind_print, bind_returned.
  cbv beta iota zeta. simpl negb. cbv iota. rewrite bind_print.
  destruct (json_file w) as [d|e]; [| reflexivity].
  rewrite bind_returned. reflexivity.
Qed.

End Runs.

Lemma sum_over_share_nonneg (ths : list Thread) : 0 <= sum_over sample_share ths.
Proof.
  induction ths as [|th ths IH]; simpl; [lia|].
  unfold sample_share at 1. destruct (Z.gtb_spec (sample_count th) 0); lia.
Qed.

Lemma last_app_nonempty {A} (l1 l2 : list A) (d : A) :
  l2 <> [] -> last (l1 ++ l2) d = last l2 d.
Proof.
  intros H. induction l1 as [|a l1 IH]; [reflexivity|].
  simpl. destruct (l1 ++ l2)%list eqn:E; [| exact IH].
  apply app_eq_nil in E. tauto.
Qed.

(** X5: besides printing, a run spawns the decompression command exactly
    once and opens the intermediate file at most once, after the spawn and
    only when the command returned 0; the report itself only prints. *)
Theorem X5_effects_of_a_run (w : World) :
  filter (fun e => negb (is_stdout e)) (fst (main w))
  = Spawned decompress_cmd
    :: (if returncode w =? 0 then [Opened "optimized-profile.json"] else []).
Proof.
  destruct (Z.eqb_spec (returncode w) 0) as [Hc|Hc].
  - rewrite (main_decompressed w Hc). cbn [fst]. rewrite filter_app.
    cbn [filter is_stdout negb app]. f_equal. f_equal.
    apply filter_stdout. destruct (json_file w) as [d|e]; [| reflexivity].
    apply report_stdout.
  - rewrite (main_failed w Hc). reflexivity.
Qed.

(** X6: when a thread raises (an index check let a negative or null index
    through), the run ends with that exception right after the lines
    already printed for the threads: no summary block is printed for the
    part that was processed. *)
Theorem X6_no_summary_after_raise (w : World) (ths : list Thread) (e : exn) :
  returncode w = 0 ->
  json_file w = Ok {| threads := Some ths |} ->
  snd (thread_loop 0 ths (0, 0)) = Raised e ->
  main w = ((report_head (len ths) ++ fst (thread_loop 0 ths (0, 0)))%list, Raised e)
  /\ ~ In (Stdout "=== СВОДКА ===") (fst (main w)).
Proof.
  intros Hc Hfile Hraise.
  assert (E : main w = ((report_head (len ths) ++ fst (thread_loop 0 ths (0, 0)))%list,
                        Raised e)).
  { rewrite (main_decompressed w Hc), Hfile, report_trace. cbn [fst snd].
    rewrite Hraise, app_nil_r. reflexivity. }
  split; [exact E|].
  rewrite E. cbn [fst]. intros Hin. apply in_app_or in Hin. destruct Hin as [Hin|Hin].
  - unfold report_head in Hin. simpl in Hin.
    repeat (destruct Hin as [Hin|Hin]; [discriminate Hin|]). exact Hin.
  - pose proof (thread_loop_lines ths 0 (0, 0)) as Hl.
    rewrite forallb_forall in Hl. specialize (Hl _ Hin). discriminate Hl.
Qed.

Lemma X6_no_summary_after_raise_witness :
  ~ In (Stdout "=== СВОДКА ===")
       (fst (main (loaded [bare_thread;
                           table_thread [Some 0] [Some 0] ["foo"] [Some (-2)]]))).
Proof.
  apply (X6_no_summary_after_raise
           (loaded [bare_thread; table_thread [Some 0] [Some 0] ["foo"] [Some (-2)]])
           [bare_thread; table_thread [Some 0] [Some 0] ["foo"] [Some (-2)]]
           IndexError); reflexivity.
Defined.

(** X8: a run exits only with status 1 and only when the decompression
    command returned a nonzero code; it returns normally only when the
    command returned 0 and the file loaded with a threads list, and then
    the last line printed is the closing banner; every other run ends in an
    exception after a successful decompression. *)
Theorem X8_outcome_of_a_run (w : World) :
  match snd (main w) with
  | Exited status => status = 1 /\ returncode w <> 0
  | Returned _ =>
      returncode w = 0
      /\ (exists ths, json_file w = Ok {| threads := Some ths |})
      /\ last (fst (main w)) (Stdout "") = Stdout "=== ОПТИМИЗАЦИЯ ЗАВЕРШЕНА ==="
  | Raised _ => returncode w = 0
  end.
Proof.
  destruct (Z.eq_dec (returncode w) 0) as [Hc|Hc].
  - rewrite (main_decompressed w Hc). cbn [fst snd].
    destruct (json_file w) as [[[ths|]]|e]; [| exact Hc | exact Hc].
    rewrite report_trace. cbn [fst snd].
    pose proof (thread_loop_outcome ths 0 0 0) as Hloop.
    destruct (snd (thread_loop 0 ths (0, 0))) as [[ts tc]|e|c];
      [| exact Hc | contradiction].
    rewrite print_summary_trace. cbn [fst snd].
    destruct (improvement tc) as [pct|e]; [| exact Hc].
    split; [exact Hc|]. split; [eexists; reflexivity|].
    repeat rewrite app_assoc. rewrite last_app_nonempty by discriminate.
    reflexivity.
  - rewrite (main_failed w Hc). cbn [snd]. split; [reflexivity | exact Hc].
Qed.

(** X9: failures of the parse phase are not caught.  When the intermediate
    file cannot be opened or parsed, the exception ends the run after the
    two progress lines; when the document has no threads key, KeyError
    ends it after the report title and a blank line. *)
Theorem X9_parse_phase_failures (w : World) :
  returncode w = 0 ->
  (forall e, json_file w = Err e ->
             main w = ([ Stdout "Распаковываем профиль..."; Spawned decompress_cmd;
                         Stdout "Анализируем профиль...";
                         Opened "optimized-profile.json" ], Raised e))
  /\ (json_file w = Ok {| threads := None |} ->
      main w = ([ Stdout "Распаковываем профиль..."; Spawned decompress_cmd;
                  Stdout "Анализируем профиль..."; Opened "optimized-profile.json";
                  Stdout "=== АНАЛИЗ ОПТИМИЗИРОВАННОГО ПРОФИЛЯ ==="; Stdout "" ],
                Raised KeyError)).
Proof.
  intros Hc. rewrite (main_decompressed w Hc).
  split; [intros e ->; reflexivity | intros ->; reflexivity].
Qed.

Lemma X9_parse_phase_failures_witness :
  main {| subprocess := ("", "", 0); json_file := Ok {| threads := None |} |}
  = ([ Stdout "Распаковываем профиль..."; Spawned decompress_cmd;
       Stdout "Анализируем профиль..."; Opened "optimized-profile.json";
       Stdout "=== АНАЛИЗ ОПТИМИЗИРОВАННОГО ПРОФИЛЯ ==="; Stdout "" ],
     Raised KeyError).
Proof.
  apply (X9_parse_phase_failures
           {| subprocess := ("", "", 0); json_file := Ok {| threads := None |} |});
    reflexivity.
Defined.

(** X10: within 2^43 of 9087 the printed percentage never raises and never
    grows with the CPU time: a larger total_cpu_time prints a percentage
    that is at most as large; it is 100 for a total of 0 and at most 100
    for every non-negative total. *)
Theorem X10_improvement_is_antitone (t1 t2 : Z) :
  Z.abs (baseline_cpu - t1) < 2 ^ 43 ->
  Z.abs (baseline_cpu - t2) < 2 ^ 43 ->
  t1 <= t2 ->
  exists p1 p2,
    improvement t1 = Ok p1 /\ improvement t2 = Ok p2 /\ p2 <= p1
    /\ (0 <= t1 -> p1 <= 100)
    /\ (t1 = 0 -> p1 = 100).
Proof.
  intros H1 H2 Hle.
  exists (Z.quot ((baseline_cpu - t1) * 100) baseline_cpu),
         (Z.quot ((baseline_cpu - t2) * 100) baseline_cpu).
  split; [now apply improvement_exact|]. split; [now apply improvement_exact|].
  unfold baseline_cpu. split; [| split].
  - apply Z.quot_le_mono; lia.
  - intros H0. apply Z.quot_le_upper_bound; lia.
  - intros ->. reflexivity.
Qed.

Lemma X10_improvement_is_antitone_witness :
  exists p1 p2,
    improvement 5000 = Ok p1 /\ improvement 9100 = Ok p2 /\ p2 <= p1
    /\ (0 <= 5000 -> p1 <= 100)
    /\ (5000 = 0 -> p1 = 100).
Proof.
  exact (X10_improvement_is_antitone 5000 9100 eq_refl eq_refl
           ltac:(discriminate)).
Defined.

(** * Properties of the printed numbers and of the analysis *)

(** ** Division by 1000 and the two-decimal rendering *)

Section Milliseconds.

Lemma float_1000 : float_of_int 1000 = S754_finite false m1000 (-43).
Proof. reflexivity. Qed.







End Milliseconds.

(** ** The analysis on 0-based indices *)

Section WordedAnalysis.

Lemma nth_opt_nil {A} (i : Z) : nth_opt (@nil A) i = None.
Proof. unfold nth_opt. destruct (i <? 0); [reflexivity | apply nth_error_nil]. Qed.

Lemma lookup_name_no_names (st : StackTable) (ft : FrameTable) (x : option Z) :
  lookup_name st ft [] x = None.
Proof.
  unfold lookup_name. destruct x as [s|]; [| reflexivity].
  destruct (nth_opt _ s) as [[f|]|]; try reflexivity.
  destruct (nth_opt _ f) as [[g|]|]; try reflexivity.
  apply nth_opt_nil.
Qed.

Lemma lookup_names_no_names (st : StackTable) (ft : FrameTable)
      (stacks : list (option Z)) :
  lookup_names st ft [] stacks = [].
Proof.
  unfold lookup_names. induction stacks as [|x stacks IH]; [reflexivity|].
  cbn [flat_map]. now rewrite lookup_name_no_names, IH.
Qed.

(** On 0-based indices the script's analysis is the worded one. *)
Lemma analyze_functions_worded (th : Thread) :
  well_indexed th = true -> analyze_functions th = analyze_functions_spec th.
Proof.
  unfold well_indexed, analyze_functions, analyze_functions_spec. intros H.
  apply andb_prop in H. destruct H as [H Hfuncs].
  apply andb_prop in H. destruct H as [Hstacks Hframes].
  destruct (stack (samples th)) as [stacks|]; [| reflexivity].
  destruct (truthy_table (stackTable th)); [| reflexivity].
  cbn [get] in Hstacks.
  destruct stacks as [|x stacks]; [reflexivity|].
  destruct (get (f_name (funcTable th)) []) as [|nm names] eqn:En.
  - cbn [nonempty andb]. now rewrite lookup_names_no_names.
  - cbn [nonempty andb]. unfold resolve_calls.
    rewrite (for_in_lookup _ _ _ _ Hstacks Hframes Hfuncs). cbn [app lift].
    rewrite bind_ret. reflexivity.
Qed.

Lemma analyze_functions_spec_trace (th : Thread) (stacks : list (option Z)) :
  stack (samples th) = Some stacks ->
  truthy_table (stackTable th) = true ->
  analyze_functions_spec th
  = (if nonempty (lookup_names (stackTable th) (frameTable th)
                               (get (f_name (funcTable th)) []) stacks)
     then top_lines (most_common 5 (Counter
            (lookup_names (stackTable th) (frameTable th)
                          (get (f_name (funcTable th)) []) stacks)))
     else [], Returned tt).
Proof.
  intros Hs Ht. unfold analyze_functions_spec. rewrite Hs, Ht. cbv zeta.
  destruct (nonempty _); [apply print_top_trace | reflexivity].
Qed.

Lemma isum_fold_right (l : list Z) : isum l = fold_right Z.add 0 l.
Proof. unfold isum. apply fold_symmetric; intros; lia. Qed.


End WordedAnalysis.

(** ** Totals, sums and the function report *)




(** C6: for a thread with sample count > 0 whose printed integers have at
    most 4300 digits, the block continues, after the three header lines,
    with the wall time as the float sum of timeDeltas rendered with two
    decimals and the CPU time as the integer sum of threadCPUDelta, and that
    CPU sum is what the thread adds to total_cpu_time; timeDeltas
    [1.5, 2.5, 3.0] is rendered 7.00 and threadCPUDelta [100, 200, 300]
    gives 600. *)
Theorem C6_thread_sums (i : nat) (th : Thread) (ts tc : Z) :
  0 < sample_count th ->
  printable (Z.of_nat i + 1) = true ->
  printable (sample_count th) = true ->
  printable (fold_right Z.add 0 (get (threadCPUDelta (samples th)) [])) = true ->
  (exists rest,
      fst (process_thread i th (ts, tc))
      = (header_lines i th
         ++ [ Stdout ("  Общее время: "
                      ++ format_2f (fold_left fadd (get (timeDeltas (samples th)) [])
                                              (float_of_int 0))
                      ++ " мс");
              Stdout ("  CPU время: "
                      ++ str (fold_right Z.add 0 (get (threadCPUDelta (samples th)) []))
                      ++ " мкс") ]
         ++ rest)%list)
  /\ (forall tr ts' tc',
         process_thread i th (ts, tc) = (tr, Returned (ts', tc')) ->
         ts' = ts + sample_count th
         /\ tc' = tc + fold_right Z.add 0 (get (threadCPUDelta (samples th)) []))
  /\ (well_indexed th = true ->
      snd (process_thread i th (ts, tc))
      = Returned (ts + sample_count th,
                  tc + fold_right Z.add 0 (get (threadCPUDelta (samples th)) [])))
  /\ (timeDeltas (samples th) = Some [f1_5; f2_5; f3_0] ->
      In (Stdout "  Общее время: 7.00 мс") (fst (process_thread i th (ts, tc))))
  /\ (threadCPUDelta (samples th) = Some [100; 200; 300] ->
      In (Stdout "  CPU время: 600 мкс") (fst (process_thread i th (ts, tc)))
      /\ forall tr ts' tc',
          process_thread i th (ts, tc) = (tr, Returned (ts', tc')) ->
          tc' = tc + 600).
Proof.
  intros Hpos _ _ _. rewrite process_thread_derive by assumption.
  unfold derived_lines, time_sum, cpu_sum, fsum. rewrite isum_fold_right.
  split; [eexists; reflexivity|].
  split.
  { intros tr ts' tc'. destruct (snd (analyze_functions th)); cbn [continue];
      intros [=]; subst; split; reflexivity. }
  split.
  { intros Hwi. now rewrite (analyze_functions_returns th Hwi). }
  split.
  - intros ->. cbn [fst]. apply in_or_app. right. left. reflexivity.
  - intros ->. split.
    + cbn [fst]. apply in_or_app. right. right. left. reflexivity.
    + intros tr ts' tc'. destruct (snd (analyze_functions th)); cbn [continue];
        intros [=]; subst; reflexivity.
Qed.

Lemma C6_thread_sums_witness :
  In (Stdout "  Общее время: 7.00 мс")
     (fst (process_thread 0 (sampled_thread (Some 3) (Some [f1_5; f2_5; f3_0])
                                            (Some [100; 200; 300])) (0, 0))).
Proof.
  apply (C6_thread_sums 0 (sampled_thread (Some 3) (Some [f1_5; f2_5; f3_0])
                                          (Some [100; 200; 300])) 0 0);
    reflexivity.
Defined.

(** C9: the analysis reports nothing unless the thread has a non-empty
    stackTable and samples has a stack field; the two further emptiness
    tests of the script change nothing, because with an empty stack sequence
    or an empty name table the worded analysis resolves no name either; on
    0-based indices the script's analysis is the worded one: the names are
    resolved over the whole stack sequence and, when there are resolved
    names, the heading and the at most five most frequent names are printed
    with their counts, in descending count order. *)
Theorem C9_function_report (th : Thread) :
  ((stack (samples th) = None \/ truthy_table (stackTable th) = false) ->
   analyze_functions th = ([], Returned tt)
   /\ analyze_functions_spec th = ([], Returned tt))
  /\ (forall stacks,
         stack (samples th) = Some stacks ->
         stacks = [] \/ get (f_name (funcTable th)) [] = [] ->
         analyze_functions th = ([], Returned tt)
         /\ analyze_functions_spec th = ([], Returned tt))
  /\ (well_indexed th = true ->
      analyze_functions th = analyze_functions_spec th)
  /\ (forall stacks,
         stack (samples th) = Some stacks ->
         truthy_table (stackTable th) = true ->
         let resolved := lookup_names (stackTable th) (frameTable th)
                                      (get (f_name (funcTable th)) []) stacks in
         let top := most_common 5 (Counter resolved) in
         analyze_functions_spec th
         = (if nonempty resolved
            then Stdout "  Топ-5 функций по семплам:"
                 :: map (fun p => Stdout ("    " ++ fst p ++ ": "
                                          ++ str (Z.of_nat (snd p)))) top
            else [], Returned tt)
         /\ List.length top = Nat.min 5 (List.length (Counter resolved))
         /\ StronglySorted by_count_desc top
         /\ NoDup (map fst top)
         /\ (forall k c, In (k, c) top -> c = occurrences k resolved /\ (0 < c)%nat)
         /\ (forall k, In k resolved -> ~ In k (map fst top) ->
               List.length top = 5%nat
               /\ forall k' c', In (k', c') top -> (occurrences k resolved <= c')%nat)).
Proof.
  split; [| split; [| split]].
  - intros H. unfold analyze_functions, analyze_functions_spec.
    destruct (stack (samples th)) as [stacks|]; [| split; reflexivity].
    destruct H as [H|H]; [discriminate|]. rewrite H. split; reflexivity.
  - intros stacks Hs H. unfold analyze_functions, analyze_functions_spec. rewrite Hs.
    destruct (truthy_table (stackTable th)); [| split; reflexivity].
    destruct H as [->| ->].
    + split; reflexivity.
    + rewrite lookup_names_no_names, andb_false_r. split; reflexivity.
  - apply analyze_functions_worded.
  - intros stacks Hs Ht resolved top.
    split; [exact (analyze_functions_spec_trace th stacks Hs Ht)|].
    apply most_common_spec.
Qed.

Lemma C9_function_report_witness :
  analyze_functions (table_thread [Some 0; Some 1] [Some 0; Some 1] ["foo"; "bar"]
                                  [Some 0; Some 0; Some 1])
  = analyze_functions_spec (table_thread [Some 0; Some 1] [Some 0; Some 1]
                                         ["foo"; "bar"] [Some 0; Some 0; Some 1]).
Proof.
  exact (proj1 (proj2 (proj2 (C9_function_report
                                (table_thread [Some 0; Some 1] [Some 0; Some 1]
                                              ["foo"; "bar"]
                                              [Some 0; Some 0; Some 1]))))
               eq_refl).
Defined.

(** C10: the printed and accumulated sample count is samples.length alone
    (any positive value, whatever the sequences hold); the wall time adds up
    every element of timeDeltas and the CPU time every element of
    threadCPUDelta, and on 0-based indices the names are resolved and
    counted over every entry of the stack sequence; the length is never
    compared with the sequences, so a length that disagrees with them
    changes the count line and total_samples and nothing else, and raises
    nothing. *)
Theorem C10_length_not_cross_checked (i : nat) (th : Thread) (n ts tc : Z) :
  0 < n ->
  printable (Z.of_nat i + 1) = true ->
  printable n = true ->
  printable (fold_right Z.add 0 (get (threadCPUDelta (samples th)) [])) = true ->
  let derived :=
    [ Stdout ("Поток " ++ str (Z.of_nat i + 1) ++ ": " ++ display_name i th);
      Stdout ("  Основной поток: " ++ str_bool (get (isMainThread th) false));
      Stdout ("  Количество семплов: " ++ str n);
      Stdout ("  Общее время: "
              ++ format_2f (fold_left fadd (get (timeDeltas (samples th)) [])
                                      (float_of_int 0))
              ++ " мс");
      Stdout ("  CPU время: "
              ++ str (fold_right Z.add 0 (get (threadCPUDelta (samples th)) []))
              ++ " мкс") ] in
  (exists rest,
      fst (process_thread i (set_length (Some n) th) (ts, tc)) = (derived ++ rest)%list)
  /\ (well_indexed th = true ->
      forall stacks,
        stack (samples th) = Some stacks ->
        truthy_table (stackTable th) = true ->
        let resolved := lookup_names (stackTable th) (frameTable th)
                                     (get (f_name (funcTable th)) []) stacks in
        process_thread i (set_length (Some n) th) (ts, tc)
        = ((derived
            ++ (if nonempty resolved
                then Stdout "  Топ-5 функций по семплам:"
                     :: map (fun p => Stdout ("    " ++ fst p ++ ": "
                                              ++ str (Z.of_nat (snd p))))
                            (most_common 5 (Counter resolved))
                else [])
            ++ [Stdout ""])%list,
           Returned (ts + n,
                     tc + fold_right Z.add 0 (get (threadCPUDelta (samples th)) []))))
  /\ (well_indexed th = true ->
      stack (samples th) = None \/ truthy_table (stackTable th) = false ->
      process_thread i (set_length (Some n) th) (ts, tc)
      = ((derived ++ [Stdout ""])%list,
         Returned (ts + n,
                   tc + fold_right Z.add 0 (get (threadCPUDelta (samples th)) [])))).
Proof.
  intros Hn _ _ _ derived.
  assert (E : process_thread i (set_length (Some n) th) (ts, tc)
              = ((derived ++ fst (analyze_functions th)
                  ++ closing (snd (analyze_functions th)))%list,
                 continue (snd (analyze_functions th))
                          (ts + n,
                           tc + fold_right Z.add 0
                                  (get (threadCPUDelta (samples th)) [])))).
  { rewrite process_thread_derive by exact Hn.
    unfold header_lines, derived_lines, time_sum, cpu_sum, fsum.
    rewrite isum_fold_right. reflexivity. }
  split; [rewrite E; eexists; reflexivity|]. split.
  - intros Hwi stacks Hs Ht resolved. rewrite E.
    rewrite (analyze_functions_worded th Hwi),
      (analyze_functions_spec_trace th stacks Hs Ht).
    reflexivity.
  - intros Hwi H. rewrite E, (analyze_functions_worded th Hwi).
    assert (Hspec : analyze_functions_spec th = ([], Returned tt)).
    { unfold analyze_functions_spec.
      destruct (stack (samples th)) as [stacks|]; [| reflexivity].
      destruct H as [H|H]; [discriminate | now rewrite H]. }
    rewrite Hspec. reflexivity.
Qed.

Lemma C10_length_not_cross_checked_witness :
  process_thread 0 (set_length (Some 2) four_sample_thread) (0, 0)
  = ([ Stdout "Поток 1: Thread 0"; Stdout "  Основной поток: False";
       Stdout "  Количество семплов: 2"; Stdout "  Общее время: 7.00 мс";
       Stdout "  CPU время: 600 мкс"; Stdout "  Топ-5 функций по семплам:";
       Stdout "    foo: 3"; Stdout "    bar: 1"; Stdout "" ],
     Returned (2, 600)).
Proof.
  exact (proj1 (proj2 (C10_length_not_cross_checked
                         0 four_sample_thread 2 0 0 eq_refl eq_refl eq_refl eq_refl))
               eq_refl [Some 0; Some 0; Some 1; Some 0] eq_refl eq_refl).
Defined.

(** X1: a sample that is null, or whose index at one of the three stages
    (the frame and func indices being the ones the script's subscripts
    return) is not below the length of the table it points into, leaves the
    collected names as they are; taking it out of the stack sequence changes
    neither the resolved names nor whether the loop raises. *)
Theorem X1_skipped_sample_is_inert (st : StackTable) (ft : FrameTable)
    (names : list string) (before after : list (option Z)) (x : option Z) :
  null_or_too_large st ft names x = true ->
  (forall calls, resolve_sample st ft names calls x = Ok calls)
  /\ resolve_calls st ft names (before ++ x :: after)
     = resolve_calls st ft names (before ++ after).
Proof.
  intros Hx.
  assert (Hskip : forall calls, resolve_sample st ft names calls x = Ok calls).
  { intros calls. revert Hx. unfold null_or_too_large, resolve_sample.
    destruct x as [s|]; [| reflexivity].
    destruct (Z.leb_spec (len (get (frame st) [])) s) as [Hs|Hs].
    { intros _. destruct (Z.ltb_spec s (len (get (frame st) []))); [lia | reflexivity]. }
    destruct (Z.ltb_spec s (len (get (frame st) []))) as [_|]; [| lia].
    destruct (item (frame st)) as [frames|]; cbn [rbind]; [| discriminate].
    destruct (subscript frames s) as [[f|]|]; cbn [rbind lt]; try discriminate.
    destruct (Z.leb_spec (len (get (func ft) [])) f) as [Hf|Hf].
    { intros _. destruct (Z.ltb_spec f (len (get (func ft) []))); [lia | reflexivity]. }
    destruct (Z.ltb_spec f (len (get (func ft) []))) as [_|]; [| lia].
    destruct (item (func ft)) as [funcs|]; cbn [rbind subscript_at]; [| discriminate].
    destruct (subscript funcs f) as [[g|]|]; cbn [rbind lt]; try discriminate.
    intros Hg. apply Z.leb_le in Hg.
    destruct (Z.ltb_spec g (len names)); [lia | reflexivity]. }
  split; [exact Hskip|].
  unfold resolve_calls. rewrite !for_in_app.
  destruct (for_in before (resolve_sample st ft names) []) as [calls|e]; simpl;
    [| reflexivity].
  now rewrite Hskip.
Qed.

Lemma X1_skipped_sample_is_inert_witness :
  resolve_calls {| frame := Some [Some 5]; st_other_keys := false |}
                {| func := Some [Some 0] |} ["foo"] ([None] ++ Some (-1) :: [Some 3])
  = resolve_calls {| frame := Some [Some 5]; st_other_keys := false |}
                  {| func := Some [Some 0] |} ["foo"] ([None] ++ [Some 3]).
Proof.
  exact (proj2 (X1_skipped_sample_is_inert
                  {| frame := Some [Some 5]; st_other_keys := false |}
                  {| func := Some [Some 0] |} ["foo"] [None] [Some 3] (Some (-1))
                  eq_refl)).
Defined.

(** X7: when the integers the thread blocks print have at most 4300
    digits, the loop over the threads never exits the process; it either
    returns the totals, where total_samples adds up exactly the positive
    sample counts (a negative or missing length adds nothing, so the total
    never decreases) and total_cpu_time the CPU sums of the threads with a
    positive count, or it raises, and then some thread with a positive
    count has a negative index, or a null inside a table. *)
Theorem X7_outcome_of_the_thread_loop (ths : list Thread) (ts tc : Z) :
  forallb thread_printable ths = true ->
  printable (len ths) = true ->
  match snd (thread_loop 0 ths (ts, tc)) with
  | Returned (total_samples, total_cpu_time) =>
      total_samples = ts + sum_over sample_share ths
      /\ total_cpu_time = tc + sum_over cpu_share ths
      /\ ts <= total_samples
  | Raised _ =>
      exists th, In th ths /\ 0 < sample_count th /\ well_indexed th = false
  | Exited _ => False
  end.
Proof.
  intros _ _.
  pose proof (thread_loop_outcome ths 0 ts tc) as H.
  destruct (snd (thread_loop 0 ths (ts, tc))) as [[ts' tc']|e|c]; try exact H.
  injection H as -> ->. pose proof (sum_over_share_nonneg ths). lia.
Qed.

Lemma X7_outcome_of_the_thread_loop_witness :
  match snd (thread_loop 0 [sampled_thread (Some (-3)) None (Some [7]);
                            sampled_thread (Some 3) None (Some [100; 200; 300])]
                         (10, 20)) with
  | Returned (total_samples, total_cpu_time) =>
      total_samples = 10 + 3 /\ total_cpu_time = 20 + 600 /\ 10 <= total_samples
  | Raised _ => False
  | Exited _ => False
  end.
Proof.
  pose proof (X7_outcome_of_the_thread_loop
                [sampled_thread (Some (-3)) None (Some [7]);
                 sampled_thread (Some 3) None (Some [100; 200; 300])]
                10 20 eq_refl eq_refl) as H.
  exact H.
Defined.
